(** * Recipe discovery of the smart grocery assistant

    A shallow embedding of the recipe-discovery code of [app.py] (key
    rotation, list cache, image URLs, tiered fall-back) and of
    [src/model_training/model_trainer.py] (the pantry recommender),
    followed by the properties proved about them.

    Conventions of the embedding.
    - Python [str] values are Rocq strings; the characters the code looks
      at (letters of ingredient and diet names, separators, URL schemes)
      are ASCII, and [lower]/[strip] below act on the ASCII range the way
      [str.lower]/[str.strip] do (characters above 127 are left alone).
    - Python [int] is [Z]; [None] is [None] of an option type.
    - Process-wide state ([st.session_state], the cache file, the requests
      that went out) is threaded explicitly as a [world] record.
    - An exception that leaves a function is a value of the error side of
      its result type; [try ... except Exception] is a match on it. *)

From Stdlib Require Import ZArith Ascii DecimalString.
From Stdlib Require QArith.
From stdpp Require Import gmap strings list sorting.

Local Open Scope string_scope.

(** ** Python string primitives *)

Module PyStr.

(** [str.isspace] on one ASCII character: TAB, LF, VT, FF, CR, the four
    separators FS..US and the blank. *)
Definition is_space (c : ascii) : bool :=
  let n := nat_of_ascii c in
  ((9 <=? n)%nat && (n <=? 13)%nat) || ((28 <=? n)%nat && (n <=? 32)%nat).

Definition lower_char (c : ascii) : ascii :=
  let n := nat_of_ascii c in
  if ((65 <=? n)%nat && (n <=? 90)%nat) then ascii_of_nat (n + 32) else c.

(** [s.lower()] *)
Fixpoint lower (s : string) : string :=
  match s with
  | EmptyString => EmptyString
  | String c s' => String (lower_char c) (lower s')
  end.

Fixpoint lstrip (s : string) : string :=
  match s with
  | EmptyString => EmptyString
  | String c s' => if is_space c then lstrip s' else s
  end.

Definition rstrip (s : string) : string := String.rev (lstrip (String.rev s)).

(** [s.strip()] *)
Definition strip (s : string) : string := rstrip (lstrip s).

(** [sep.join(l)] *)
Fixpoint join (sep : string) (l : list string) : string :=
  match l with
  | [] => ""
  | [x] => x
  | x :: l' => x +:+ sep +:+ join sep l'
  end.

(** [s.startswith(p)] *)
Definition startswith (p s : string) : bool := String.prefix p s.

(** [s.endswith(p)] *)
Definition endswith (p s : string) : bool :=
  String.prefix (String.rev p) (String.rev s).

(** [c in s] for a one-character needle *)
Fixpoint contains_char (c : ascii) (s : string) : bool :=
  match s with
  | EmptyString => false
  | String c' s' => if decide (c = c') then true else contains_char c s'
  end.

(** [s.replace(a, b)] for one-character [a] and [b] *)
Fixpoint replace_char (a b : ascii) (s : string) : string :=
  match s with
  | EmptyString => EmptyString
  | String c s' => String (if decide (c = a) then b else c) (replace_char a b s')
  end.

(** Truth value of a string: [bool(s)] *)
Definition truthy (s : string) : bool := negb (String.eqb s "").

(** [x or d] for an optional string: [None] and [""] are falsy. *)
Definition or_else (x : option string) (d : string) : string :=
  match x with
  | Some s => if truthy s then s else d
  | None => d
  end.

(** [str(n)] / [f"{n}"] for an integer *)
Definition of_Z (n : Z) : string := NilZero.string_of_int (Z.to_int n).

(** [sorted(l)] on strings: the order is the code-point lexicographic
    order [String.le]; a stable sort on a total order. *)
Definition sorted (l : list string) : list string := merge_sort String.le l.

End PyStr.

(** ** The list cache: keys and freshness ([app.py], lines 142-179) *)

Definition CACHE_TTL_DAYS : Z := 3.

(** [_cache_key(ingredients, diet, number)] *)
Definition _cache_key (ingredients : list string) (diet : option string) (number : Z) : string :=
  let norm :=
    PyStr.strip
      (PyStr.join ","
         (PyStr.sorted
            (map (fun x => PyStr.lower (PyStr.strip x))
                 (filter (fun x => PyStr.truthy x = true) ingredients)))) in
  let d := PyStr.lower (PyStr.or_else diet "none") in
  norm +:+ "|" +:+ d +:+ "|" +:+ PyStr.of_Z (if (number =? 0)%Z then 10%Z else number).

(** [_is_fresh(iso_str, days)].  Instants are counted in microseconds, the
    resolution of [datetime]; [now] is the reading of [datetime.utcnow()].
    The ISO text of a time stamp is represented by the instant it denotes,
    [None] standing for a text on which [datetime.fromisoformat] (or the
    subtraction) raises, which the [except] turns into [False]. *)
Definition MICROS_PER_DAY : Z := 86400000000.

Definition timedelta (days : Z) : Z := (days * MICROS_PER_DAY)%Z.

Definition _is_fresh (now : Z) (iso_str : option Z) (days : Z) : bool :=
  match iso_str with
  | Some ts => (now - ts <=? timedelta days)%Z
  | None => false
  end.

(** ** Image helpers ([app.py], lines 315-343) *)

Definition CDN_BASE : string := "https://img.spoonacular.com/recipes/".

(** [_build_img_from_id(rid, image_type)]: [rid] is [Some n] when [int(rid)]
    succeeds with value [n], and [None] when it raises. *)
Definition _build_img_from_id (rid : option Z) (image_type : option string) : option string :=
  match rid with
  | None => None
  | Some rid_int =>
    match image_type with
    | Some t =>
      if PyStr.truthy t
      then Some (CDN_BASE +:+ PyStr.of_Z rid_int +:+ "-556x370." +:+ t)
      else None
    | None => None
    end
  end.

(** [_fix_image_url(val, rid, image_type)]: [val] is [Some s] for a [str]
    and [None] for anything else ([isinstance(val, str)] fails). *)
Definition _fix_image_url (val : option string) (rid : option Z) (image_type : option string)
  : option string :=
  let built :=
    match _build_img_from_id rid image_type with
    | Some b => if PyStr.truthy b then Some b else None
    | None => None
    end in
  match val with
  | Some s =>
    let v := PyStr.strip s in
    if PyStr.truthy v then
      if PyStr.startswith "http://" v || PyStr.startswith "https://" v || PyStr.startswith "data:" v
      then Some v
      else if (PyStr.endswith ".jpg" v || PyStr.endswith ".jpeg" v || PyStr.endswith ".png" v)
              && negb (PyStr.contains_char "/" v)
      then Some (CDN_BASE +:+ v)
      else built
    else built
  | None => built
  end.

(** ** Records exchanged with the provider and kept in the cache *)

(** One record of a provider response, field by field as [rec.get(...)]
    reads it ([None]: the key is missing or null). *)
Record raw_recipe := {
  raw_id : option Z;
  raw_title : option string;
  raw_image : option string;
  raw_imageType : option string;
  raw_usedIngredientCount : option Z;
  raw_missedIngredientCount : option Z;
  raw_sourceUrl : option string;
  raw_spoonacularSourceUrl : option string;
  raw_readyInMinutes : option Z;
  raw_servings : option Z
}.

(** The summary dictionaries the list request returns. *)
Record summary := {
  sum_id : option Z;
  sum_title : option string;
  sum_image : option string;
  sum_usedIngredientCount : option Z;
  sum_missedIngredientCount : option Z;
  sum_sourceUrl : option string;
  sum_readyInMinutes : option Z;
  sum_servings : option Z;
  sum_imageType : option string
}.

(** An entry of [recipes_cache.json], as [_save_and_return] writes it: a
    dictionary with the two keys ["ts"] and ["data"] (hence truthy). *)
Record cache_entry := {
  entry_ts : option Z;
  entry_data : list summary
}.

(** What [requests.get] is given. *)
Record request := {
  endpoint : string;
  params : gmap string string
}.

(** What [requests.get] gives back: the status and the list of records the
    body decodes to ([None] when decoding, or reading the records, raises). *)
Record Response := {
  status_code : Z;
  json : option (list raw_recipe)
}.

Inductive reply :=
  | Replied (r : Response)
  | Failed.                 (* [requests.get] raised: timeout, no connection *)

(** The provider, seen from the client: the reply to a request, given how
    many requests went out before it. *)
Definition network := nat -> request -> reply.

Inductive exn :=
  | IndexError
  | ModelNotTrained       (* RuntimeError("Model not trained. ...") *)
  | LoadError             (* an artifact file that exists but does not load *)
  | ValueError.

(** Process-wide state. *)
Record world := {
  key_index : nat;                                  (* st.session_state.key_index *)
  offline_mode : bool;                              (* st.session_state.offline_mode *)
  sent : list request;                              (* requests issued so far *)
  list_cache : option (gmap string cache_entry);    (* LIST_CACHE, [None]: missing or corrupt *)
  disk_writable : bool;                             (* whether [_write_json] gets through *)
  demo_file : option (list summary);                (* DEMO_RECIPES_FILE *)
  now : Z                                           (* datetime.utcnow() *)
}.

Definition set_key_index (i : nat) (w : world) : world :=
  {| key_index := i; offline_mode := offline_mode w; sent := sent w;
     list_cache := list_cache w; disk_writable := disk_writable w;
     demo_file := demo_file w; now := now w |}.

Definition log_request (req : request) (w : world) : world :=
  {| key_index := key_index w; offline_mode := offline_mode w; sent := sent w ++ [req];
     list_cache := list_cache w; disk_writable := disk_writable w;
     demo_file := demo_file w; now := now w |}.

Definition set_list_cache (c : gmap string cache_entry) (w : world) : world :=
  {| key_index := key_index w; offline_mode := offline_mode w; sent := sent w;
     list_cache := Some c; disk_writable := disk_writable w;
     demo_file := demo_file w; now := now w |}.

(** ** Key pool and rotation ([app.py], lines 17-60) *)

(** [current_key()]: the key in the current slot, trimmed; the empty string
    for an empty pool; [KEYS[i]] raises outside the pool. *)
Definition current_key (KEYS : list string) (w : world) : exn + string :=
  match KEYS with
  | [] => inr ""
  | _ :: _ =>
    match KEYS !! key_index w with
    | Some k => inr (PyStr.strip (PyStr.or_else (Some k) ""))
    | None => inl IndexError
    end
  end.

(** [r.status_code in (401, 402, 429)] *)
Definition rotate_signal (code : Z) : bool :=
  ((code =? 401) || (code =? 402) || (code =? 429))%Z.

(** [st.session_state.key_index = (st.session_state.key_index + 1) % n] *)
Definition rotate (n : nat) (w : world) : world :=
  set_key_index ((key_index w + 1) mod n) w.

(** The body of [for _ in range(n)], [rounds] iterations being left.  The
    loop rebinds [params] at every attempt, so it is threaded along. *)
Fixpoint call_loop (KEYS : list string) (net : network) (endpoint : string) (n : nat)
    (rounds : nat) (params : gmap string string) (w : world)
  : (exn + option Response) * world :=
  match rounds with
  | O => (inr None, w)
  | S rounds' =>
    match current_key KEYS w with
    | inl e => (inl e, w)
    | inr k =>
      if PyStr.truthy k then
        let params := <["apiKey" := k]> params in
        let req := {| endpoint := endpoint; params := params |} in
        let w1 := log_request req w in
        match net (length (sent w)) req with
        | Replied r =>
          if rotate_signal (status_code r)
          then call_loop KEYS net endpoint n rounds' params (rotate n w1)
          else (inr (Some r), w1)
        | Failed => call_loop KEYS net endpoint n rounds' params (rotate n w1)
        end
      else call_loop KEYS net endpoint n rounds' params (rotate n w)
    end
  end.

(** [call_spoonacular(endpoint, params)] *)
Definition call_spoonacular (KEYS : list string) (net : network) (endpoint : string)
    (params : gmap string string) (w : world) : (exn + option Response) * world :=
  let n := Nat.max 1 (length KEYS) in
  call_loop KEYS net endpoint n n params w.

(** ** The list request ([app.py], lines 181-197 and 356-462) *)

Definition builtin_demo_recipes : list summary :=
  [ {| sum_id := Some 910001%Z; sum_title := Some "Masala Khichdi"; sum_image := None;
       sum_usedIngredientCount := Some 4%Z; sum_missedIngredientCount := Some 0%Z;
       sum_sourceUrl := None; sum_readyInMinutes := Some 28%Z; sum_servings := Some 2%Z;
       sum_imageType := None |};
    {| sum_id := Some 910002%Z; sum_title := Some "Paneer Bhurji Wrap"; sum_image := None;
       sum_usedIngredientCount := Some 5%Z; sum_missedIngredientCount := Some 0%Z;
       sum_sourceUrl := None; sum_readyInMinutes := Some 20%Z; sum_servings := Some 2%Z;
       sum_imageType := None |};
    {| sum_id := Some 910003%Z; sum_title := Some "Garlic Butter Pasta"; sum_image := None;
       sum_usedIngredientCount := Some 3%Z; sum_missedIngredientCount := Some 1%Z;
       sum_sourceUrl := None; sum_readyInMinutes := Some 18%Z; sum_servings := Some 2%Z;
       sum_imageType := None |} ].

(** [_load_demo_recipes()] *)
Definition _load_demo_recipes (w : world) : list summary :=
  match demo_file w with
  | Some (x :: demo) => x :: demo
  | _ => builtin_demo_recipes
  end.

(** [_read_json(LIST_CACHE, {"items": {}, "meta": {}})["items"]] *)
Definition read_list_cache (w : world) : gmap string cache_entry :=
  match list_cache w with
  | Some items => items
  | None => ∅
  end.

(** The dictionary [diet_map] of the list request. *)
Definition diet_map : gmap (option string) (option string) :=
  <[Some "keto" := Some "ketogenic"]>
  (<[Some "gluten-free" := Some "gluten free"]>
  (<[Some "paleo" := Some "paleolithic"]>
  (<[Some "none" := None]>
  (<[None := None]> ∅)))).

(** [diet_norm = diet_map.get((diet or "").lower(), (diet or ""))] *)
Definition diet_norm (diet : option string) : option string :=
  match diet_map !! Some (PyStr.lower (PyStr.or_else diet "")) with
  | Some v => v
  | None => Some (PyStr.or_else diet "")
  end.

(** [[x.strip() for x in (include_ingredients or []) if x and x.strip()]] *)
Definition clean_ingredients (include_ingredients : list string) : list string :=
  map PyStr.strip
      (filter (fun x => PyStr.truthy x && PyStr.truthy (PyStr.strip x) = true)
              include_ingredients).

(** [number or 10] *)
Definition number_or_10 (number : Z) : Z := if (number =? 0)%Z then 10%Z else number.

(** The parameters of the primary search, the optional ["diet"] included. *)
Definition complex_search_params (ingredients : list string) (diet_norm : option string)
    (number : Z) : gmap string string :=
  let params : gmap string string :=
    <["includeIngredients" := PyStr.join "," (take 20 ingredients)]>
    (<["fillIngredients" := "true"]>
    (<["addRecipeInformation" := "true"]>
    (<["instructionsRequired" := "true"]>
    (<["number" := PyStr.of_Z (number_or_10 number)]>
    (<["sort" := "meta-score"]> ∅))))) in
  match diet_norm with
  | Some d => if PyStr.truthy d then <["diet" := d]> params else params
  | None => params
  end.

Definition find_by_ingredients_params (ingredients : list string) (number : Z)
  : gmap string string :=
  <["ingredients" := PyStr.join "," (take 20 ingredients)]>
  (<["number" := PyStr.of_Z (number_or_10 number)]>
  (<["ranking" := "1"]>
  (<["ignorePantry" := "true"]> ∅))).

(** [a or b] on optional strings *)
Definition str_or (a b : option string) : option string :=
  match a with
  | Some s => if PyStr.truthy s then a else b
  | None => b
  end.

(** [x or 0] on optional integers *)
Definition int_or_0 (x : option Z) : option Z := Some (default 0%Z x).

Definition summary_of_complex (rec : raw_recipe) : summary :=
  {| sum_id := raw_id rec;
     sum_title := raw_title rec;
     sum_image := _fix_image_url (raw_image rec) (raw_id rec) (raw_imageType rec);
     sum_usedIngredientCount := raw_usedIngredientCount rec;
     sum_missedIngredientCount := raw_missedIngredientCount rec;
     sum_sourceUrl := str_or (raw_sourceUrl rec) (raw_spoonacularSourceUrl rec);
     sum_readyInMinutes := raw_readyInMinutes rec;
     sum_servings := raw_servings rec;
     sum_imageType := raw_imageType rec |}.

Definition summary_of_find (rec : raw_recipe) : summary :=
  {| sum_id := raw_id rec;
     sum_title := raw_title rec;
     sum_image := _fix_image_url (raw_image rec) (raw_id rec) (raw_imageType rec);
     sum_usedIngredientCount := int_or_0 (raw_usedIngredientCount rec);
     sum_missedIngredientCount := int_or_0 (raw_missedIngredientCount rec);
     sum_sourceUrl := None;
     sum_readyInMinutes := None;
     sum_servings := None;
     sum_imageType := raw_imageType rec |}.

(** How one [try] block of the list request ends: with a non-empty list to
    save and return, with the "no response" of the key-rotating wrapper, or
    by falling through to what follows (status other than 200, empty
    result, or an exception caught by [except Exception]). *)
Inductive strategy_result :=
  | Found (data_list : list summary)
  | NoResponse
  | FallThrough.

(** One search strategy: the call and the normalisation of its records.
    [Response.__bool__] is [status_code < 400], so [r and r.status_code ==
    200] is the test on the status alone. *)
Definition strategy (KEYS : list string) (net : network) (endpoint : string)
    (params : gmap string string) (normalise : raw_recipe -> summary) (w : world)
  : strategy_result * world :=
  match call_spoonacular KEYS net endpoint params w with
  | (inl _, w1) => (FallThrough, w1)
  | (inr None, w1) => (NoResponse, w1)
  | (inr (Some r), w1) =>
    if (status_code r =? 200)%Z then
      match json r with
      | None => (FallThrough, w1)
      | Some results =>
        match map normalise results with
        | [] => (FallThrough, w1)
        | s :: summaries => (Found (s :: summaries), w1)
        end
      end
    else (FallThrough, w1)
  end.

(** Attempt 1: [/recipes/complexSearch] *)
Definition primary_search (KEYS : list string) (net : network) (ingredients : list string)
    (diet_norm : option string) (number : Z) (w : world) : strategy_result * world :=
  strategy KEYS net "/recipes/complexSearch"
           (complex_search_params ingredients diet_norm number) summary_of_complex w.

(** Attempt 2: [/recipes/findByIngredients] *)
Definition secondary_search (KEYS : list string) (net : network) (ingredients : list string)
    (number : Z) (w : world) : strategy_result * world :=
  strategy KEYS net "/recipes/findByIngredients"
           (find_by_ingredients_params ingredients number) summary_of_find w.

(** [_save_and_return(data_list)]: [blob] is the dictionary read at the
    start of the request; a failing write is swallowed. *)
Definition _save_and_return (blob : gmap string cache_entry) (key : string)
    (data_list : list summary) (w : world) : list summary * world :=
  let blob' := <[key := {| entry_ts := Some (now w); entry_data := data_list |}]> blob in
  (data_list, if disk_writable w then set_list_cache blob' w else w).

(** [entry.get("data", []) if entry else _load_demo_recipes()] *)
Definition stale_or_demo (entry : option cache_entry) (w : world) : list summary :=
  match entry with
  | Some e => entry_data e
  | None => _load_demo_recipes w
  end.

(** [entry.get("data", [])] under [if entry and _is_fresh(entry.get("ts", ""))] *)
Definition fresh_hit (entry : option cache_entry) (w : world) : option (list summary) :=
  match entry with
  | Some e => if _is_fresh (now w) (entry_ts e) CACHE_TTL_DAYS then Some (entry_data e) else None
  | None => None
  end.

(** [spoonacular_recipes(include_ingredients, diet, number)]; the [debug]
    captions are display only and left out. *)
Definition spoonacular_recipes (KEYS : list string) (net : network)
    (include_ingredients : list string) (diet : option string) (number : Z) (w : world)
  : list summary * world :=
  if offline_mode w then
    let ingredients := clean_ingredients include_ingredients in
    let diet_norm := PyStr.lower (PyStr.or_else diet "none") in
    let key := _cache_key ingredients (Some diet_norm) number in
    let blob := read_list_cache w in
    match fresh_hit (blob !! key) w with
    | Some data => (data, w)
    | None => (_load_demo_recipes w, w)
    end
  else
    let diet_norm := diet_norm diet in
    let ingredients :=
      match clean_ingredients include_ingredients with
      | [] => ["egg"; "milk"; "bread"]
      | x :: l => x :: l
      end in
    let key := _cache_key ingredients (Some (PyStr.or_else diet_norm "none")) number in
    let blob := read_list_cache w in
    let entry := blob !! key in
    match fresh_hit entry w with
    | Some data => (data, w)
    | None =>
      match primary_search KEYS net ingredients diet_norm number w with
      | (Found summaries, w1) => _save_and_return blob key summaries w1
      | (NoResponse, w1) => (stale_or_demo entry w1, w1)
      | (FallThrough, w1) =>
        match secondary_search KEYS net ingredients number w1 with
        | (Found out, w2) => _save_and_return blob key out w2
        | (NoResponse, w2) => (stale_or_demo entry w2, w2)
        | (FallThrough, w2) => (stale_or_demo entry w2, w2)
        end
      end
    end.

(** ** The pantry recommender ([src/model_training/model_trainer.py]) *)

(** The numeric side of the recommender, which the embedding keeps
    abstract: the type of the scores with its zero ([0.0]) and its order,
    the fitted vectorizer, the term matrix, and the similarities
    [linear_kernel(vec.transform([q]), mat).ravel()], one per matrix row. *)
Class Scoring := {
  Score : Type;
  score_zero : Score;
  score_leb : Score -> Score -> bool;
  Vectorizer : Type;
  Matrix : Type;
  linear_kernel : Vectorizer -> Matrix -> string -> list Score
}.

(** A file of the artifact directory. *)
Inductive file (A : Type) :=
  | Absent                  (* [os.path.exists] is false *)
  | Unreadable              (* exists, and loading it raises *)
  | Holds (content : A).
Arguments Absent {A}.
Arguments Unreadable {A}.
Arguments Holds {A} content.

(** [os.path.exists(path)] *)
Definition exists_ {A} (f : file A) : bool :=
  match f with
  | Absent => false
  | _ => true
  end.

(** A row of [recipes_index.csv]; [diet_tag] is [None] for an empty cell. *)
Record recipe_row := {
  recipe_id : Z;
  title : string;
  ingredients : string;
  diet_tag : option string
}.

(** The table of [recipes_index.csv]: whether it has a [diet_tag] column,
    and its rows in stored order. *)
Record recipes_index := {
  has_diet_tag : bool;
  rows : list recipe_row
}.

(** [df.head(n)]: the first [n] rows, all but the last [-n] for negative [n]. *)
Definition head {A} (n : Z) (l : list A) : list A :=
  if (0 <=? n)%Z then take (Z.to_nat n) l
  else take (length l - Z.to_nat (- n)) l.

(** The token of one pantry item: [str(i).lower().strip().replace(" ", "_")] *)
Definition pantry_token (i : string) : string :=
  PyStr.replace_char " " "_" (PyStr.strip (PyStr.lower i)).

(** [" ".join(<token> for i in pantry_items if str(i).strip())] *)
Definition pantry_query (pantry_items : list string) : string :=
  PyStr.join " "
    (map pantry_token (filter (fun i => PyStr.truthy (PyStr.strip i) = true) pantry_items)).

(** [rec_map["diet_tag"].str.lower() == diet.lower()] on one row *)
Definition diet_matches (diet : string) (r : recipe_row) : bool :=
  match diet_tag r with
  | Some t => String.eqb (PyStr.lower t) (PyStr.lower diet)
  | None => false
  end.

Section Recommender.
Context `{Scoring}.

(** The three artifact files [VECT_PATH], [MATRIX_PATH], [RECIPES_MAP]. *)
Record artifacts := {
  vect_file : file Vectorizer;
  matrix_file : file Matrix;
  recipes_map : file recipes_index
}.

(** A row of the returned frame: the catalogue row and its score. *)
Definition scored_row : Type := recipe_row * Score.

(** Descending order of the score, as [sort_values("score",
    ascending=False)] uses it. *)
Definition score_desc (a b : scored_row) : Prop := score_leb (snd b) (snd a) = true.

Global Instance score_desc_dec : RelDecision score_desc :=
  fun a b => decide (score_leb (snd b) (snd a) = true).

(** [rec_map.sort_values("score", ascending=False)] *)
Definition sort_values (l : list scored_row) : list scored_row :=
  merge_sort score_desc l.

(** [recommend_from_pantry(pantry_items, top_k, diet)] *)
Definition recommend_from_pantry (fs : artifacts) (pantry_items : list string)
    (top_k : Z) (diet : option string) : exn + list scored_row :=
  if negb (exists_ (vect_file fs)) || negb (exists_ (matrix_file fs))
     || negb (exists_ (recipes_map fs))
  then inl ModelNotTrained
  else
    match vect_file fs, matrix_file fs, recipes_map fs with
    | Holds vec, Holds mat, Holds rec_map =>
      let q := pantry_query pantry_items in
      if negb (PyStr.truthy q)
      then inr (map (fun r => (r, score_zero)) (head top_k (rows rec_map)))
      else
        let sims := linear_kernel vec mat q in
        if negb (length sims =? length (rows rec_map))%nat then inl ValueError
        else
          let scored := zip (rows rec_map) sims in
          let kept :=
            if PyStr.truthy (PyStr.or_else diet "") && has_diet_tag rec_map
            then filter (fun r => diet_matches (PyStr.or_else diet "") (fst r) = true) scored
            else scored in
          inr (head top_k (sort_values kept))
    | _, _, _ => inl LoadError
    end.

End Recommender.

(** ** Notions used in the statements *)

(** The ingredient names as the cache key sees them: the non-empty ones,
    trimmed and lower-cased, in request order. *)
Definition normalized_names (ingredients : list string) : list string :=
  map (fun x => PyStr.lower (PyStr.strip x))
      (filter (fun x => PyStr.truthy x = true) ingredients).

(** The same names as a set, duplicates merged. *)
Definition ingredient_set (ingredients : list string) : gset string :=
  list_to_set (normalized_names ingredients).

(** The diet component of the cache key: lower-cased, ["none"] when absent. *)
Definition key_diet (diet : option string) : string :=
  PyStr.lower (PyStr.or_else diet "none").

(** An absolute reference: [v.startswith(("http://", "https://", "data:"))] *)
Definition is_absolute (v : string) : bool :=
  PyStr.startswith "http://" v || PyStr.startswith "https://" v || PyStr.startswith "data:" v.

(** A file name the code prefixes with the CDN base:
    [v.endswith((".jpg", ".jpeg", ".png")) and "/" not in v] *)
Definition is_image_file_name (v : string) : bool :=
  (PyStr.endswith ".jpg" v || PyStr.endswith ".jpeg" v || PyStr.endswith ".png" v)
  && negb (PyStr.contains_char "/" v).

(** The diet filter that goes out with the primary search, if any. *)
Definition diet_sent (ingredients : list string) (diet : option string) (number : Z)
  : option string :=
  complex_search_params ingredients (diet_norm diet) number !! "diet".

(** The diet names [diet_map] translates. *)
Definition recognized_diet (diet : option string) : Prop :=
  PyStr.lower (PyStr.or_else diet "") ∈ ["keto"; "gluten-free"; "paleo"].

(** An attempt that makes the client move on to the next key: a status in
    401, 402, 429, or no reply at all. *)
Definition failed_reply (r : reply) : bool :=
  match r with
  | Replied r => rotate_signal (status_code r)
  | Failed => true
  end.

(** The request of an attempt made with key [key]. *)
Definition request_with_key (endpoint : string) (params : gmap string string) (key : string)
  : request :=
  {| endpoint := endpoint; params := <["apiKey" := key]> params |}.

(** The key held by a slot of the pool, trimmed as [current_key] reads it. *)
Definition slot_key (KEYS : list string) (slot : nat) : string :=
  PyStr.strip (default "" (KEYS !! slot)).

(** Every request of [reqs], issued in that order after [pos] earlier
    requests, got a reply that makes the client rotate. *)
Definition all_failed (net : network) (pos : nat) (reqs : list request) : Prop :=
  forall k rq, reqs !! k = Some rq -> failed_reply (net (pos + k) rq) = true.

(** The [k]-th request of [reqs] carries the key of slot [start + k],
    counted round the pool. *)
Definition uses_slots (KEYS : list string) (endpoint : string) (params : gmap string string)
    (start : nat) (reqs : list request) : Prop :=
  forall k rq, reqs !! k = Some rq ->
    rq = request_with_key endpoint params (slot_key KEYS ((start + k) mod length KEYS)).

(** No key of the pool is blank (what the construction of [KEYS] ensures). *)
Definition no_blank_key (KEYS : list string) : Prop :=
  Forall (fun k => PyStr.truthy (PyStr.strip k) = true) KEYS.

(** The two worlds differ at most in the pool index and the requests sent. *)
Definition same_files (w w' : world) : Prop :=
  offline_mode w' = offline_mode w /\ list_cache w' = list_cache w
  /\ disk_writable w' = disk_writable w /\ demo_file w' = demo_file w /\ now w' = now w.

(** The ingredients of a live request: the default three when none is left. *)
Definition effective_ingredients (include_ingredients : list string) : list string :=
  match clean_ingredients include_ingredients with
  | [] => ["egg"; "milk"; "bread"]
  | x :: l => x :: l
  end.

(** The cache key of a live request. *)
Definition request_key (include_ingredients : list string) (diet : option string) (number : Z)
  : string :=
  _cache_key (effective_ingredients include_ingredients)
             (Some (PyStr.or_else (diet_norm diet) "none")) number.

(** Both network strategies fail or come back empty: the primary search
    yields no list to return, and either it reported "no response" (after
    which the secondary search is skipped) or the secondary search, run in
    the state the primary one left, yields none either. *)
Definition network_failed (KEYS : list string) (net : network)
    (include_ingredients : list string) (diet : option string) (number : Z) (w : world) : Prop :=
  match primary_search KEYS net (effective_ingredients include_ingredients)
                       (diet_norm diet) number w with
  | (Found _, _) => False
  | (NoResponse, _) => True
  | (FallThrough, w1) =>
    match secondary_search KEYS net (effective_ingredients include_ingredients) number w1 with
    | (Found _, _) => False
    | _ => True
    end
  end.

(** Every pantry item is empty or blank: nothing is left of the query. *)
Definition blank_pantry (pantry_items : list string) : Prop :=
  Forall (fun i => PyStr.truthy (PyStr.strip i) = false) pantry_items.

(** The first rows of the catalogue, each with score zero. *)
Definition zero_scored `{Scoring} (rs : list recipe_row) : list scored_row :=
  map (fun r => (r, score_zero)) rs.

(** A reply the list request can make nothing of: no reply, a status other
    than 200, a body that does not decode, or no record at all. *)
Definition useless_reply (r : reply) : bool :=
  match r with
  | Failed => true
  | Replied r =>
    negb (status_code r =? 200)%Z
    || match json r with
       | None | Some [] => true
       | Some (_ :: _) => false
       end
  end.

(** The cache key of a request in offline mode. *)
Definition offline_key (include_ingredients : list string) (diet : option string) (number : Z)
  : string :=
  _cache_key (clean_ingredients include_ingredients)
             (Some (PyStr.lower (PyStr.or_else diet "none"))) number.

(** Every character of the string is white space. *)
Fixpoint all_space (s : string) : bool :=
  match s with
  | EmptyString => true
  | String c s' => PyStr.is_space c && all_space s'
  end.

(** ** Sample inputs for the examples *)

Definition sample_world : world :=
  {| key_index := 0; offline_mode := false; sent := []; list_cache := None;
     disk_writable := true; demo_file := None; now := 0%Z |}.

Definition sample_pool : list string := ["key-one"; "key-two"; "key-three"].

Definition response_with (code : Z) : Response := {| status_code := code; json := Some [] |}.

(** The first two requests are turned away with 429, later ones get 200. *)
Definition net_third_succeeds : network :=
  fun k _ => if (k <? 2)%nat then Replied (response_with 429) else Replied (response_with 200).

(** Every request is turned away with 402. *)
Definition net_all_rejected : network := fun _ _ => Replied (response_with 402).

(** No request gets through. *)
Definition net_down : network := fun _ _ => Failed.

Definition sample_summary : summary :=
  {| sum_id := Some 7%Z; sum_title := Some "Omelette"; sum_image := None;
     sum_usedIngredientCount := Some 1%Z; sum_missedIngredientCount := Some 0%Z;
     sum_sourceUrl := None; sum_readyInMinutes := None; sum_servings := None;
     sum_imageType := None |}.

Definition sample_entry : cache_entry :=
  {| entry_ts := Some 0%Z; entry_data := [sample_summary] |}.

(** A live world, ten days after [sample_entry] was written for the
    request of ["egg"], no diet, ten results. *)
Definition stale_world : world :=
  {| key_index := 0; offline_mode := false; sent := [];
     list_cache := Some (<["egg|none|10" := sample_entry]> ∅);
     disk_writable := true; demo_file := None; now := (10 * MICROS_PER_DAY)%Z |}.

(** A small trained index: integer scores, the similarities stored in the
    matrix itself. *)
Definition sample_scoring : Scoring :=
  {| Score := Z; score_zero := 0%Z; score_leb := Z.leb;
     Vectorizer := unit; Matrix := list Z;
     linear_kernel := fun _ mat _ => mat |}.

Definition row_dal : recipe_row :=
  {| recipe_id := 1; title := "Dal"; ingredients := "lentil,rice"; diet_tag := Some "Vegan" |}.
Definition row_omelette : recipe_row :=
  {| recipe_id := 2; title := "Omelette"; ingredients := "egg,milk"; diet_tag := Some "vegetarian" |}.
Definition row_salad : recipe_row :=
  {| recipe_id := 3; title := "Rice salad"; ingredients := "rice,tomato"; diet_tag := Some "vegan" |}.

Definition sample_catalogue : recipes_index :=
  {| has_diet_tag := true; rows := [row_dal; row_omelette; row_salad] |}.

Definition sample_artifacts : @artifacts sample_scoring :=
  {| vect_file := Holds (tt : @Vectorizer sample_scoring);
     matrix_file := Holds ([5; 9; 7]%Z : @Matrix sample_scoring);
     recipes_map := Holds sample_catalogue |}.

(** ** Further code: the key pool at start-up ([app.py], lines 17-26) *)

(** [s.split(sep)] for a one-character separator: every occurrence cuts,
    and the empty string gives the one empty part. *)
Fixpoint str_split (sep : ascii) (s : string) : list string :=
  match s with
  | EmptyString => [""]
  | String c s' =>
    if decide (c = sep) then "" :: str_split sep s'
    else match str_split sep s' with
         | [] => [String c ""]
         | p :: parts => String c p :: parts
         end
  end.

Definition DEFAULT_KEYS : list string :=
  ["b2ea4797723744c889f6fad85b347bcb"; "2f2b0f15d12346048bd4383176acfaed"].

(** The module-level [KEYS], as a function of the environment variable
    [SPOON_KEYS] ([None] when it is not set). *)
Definition KEYS_of_env (spoon_keys : option string) : list string :=
  let _env_keys := PyStr.strip (PyStr.or_else spoon_keys "") in
  if PyStr.truthy _env_keys
  then map PyStr.strip
           (filter (fun k => PyStr.truthy (PyStr.strip k) = true) (str_split "," _env_keys))
  else DEFAULT_KEYS.

(** ** Further code: the detail request ([app.py], lines 199-201, 464-504) *)

(** An entry of [extendedIngredients], field by field; the amount is a
    JSON number, kept as the rational it denotes.  The detail record
    copies the four fields. *)
Record ingredient := {
  ing_name : option string;
  ing_amount : option QArith_base.Q;
  ing_unit : option string;
  ing_original : option string
}.

(** An entry of [analyzedInstructions]: its [steps], each with its [step] text. *)
Record raw_instruction := {
  inst_steps : option (list (option string))
}.

(** The body of an [/information] reply. *)
Record raw_detail := {
  det_id : option Z;
  det_title : option string;
  det_image : option string;
  det_imageType : option string;
  det_readyInMinutes : option Z;
  det_servings : option Z;
  det_sourceUrl : option string;
  det_spoonacularSourceUrl : option string;
  det_extendedIngredients : option (list ingredient);
  det_analyzedInstructions : option (list raw_instruction);
  det_instructions : option string
}.

(** The detail dictionary the request returns and caches. *)
Record details := {
  d_id : option Z;
  d_title : option string;
  d_image : option string;
  d_readyInMinutes : option Z;
  d_servings : option Z;
  d_sourceUrl : option string;
  d_ingredients : list ingredient;
  d_steps : list string
}.

(** The two directories of detail files, by recipe id: [DETAILS_DIR] and
    [DEMO_DETAILS_DIR].  A file that is missing or does not decode reads
    as [None] ([_read_json(path, None)]); the files the code writes are
    non-empty dictionaries, hence truthy. *)
Record detail_files := {
  details_dir : gmap Z details;
  demo_details_dir : gmap Z details
}.

(** [step.get("step")] of every step of every instruction, the falsy ones
    left out. *)
Definition analyzed_steps (insts : list raw_instruction) : list string :=
  flat_map
    (fun inst =>
       flat_map
         (fun step =>
            match step with
            | Some text => if PyStr.truthy text then [text] else []
            | None => []
            end)
         (default [] (inst_steps inst)))
    insts.

(** The dictionary [details] built from the decoded body. *)
Definition details_of (data : raw_detail) : details :=
  {| d_id := det_id data;
     d_title := det_title data;
     d_image := _fix_image_url (det_image data) (det_id data) (det_imageType data);
     d_readyInMinutes := det_readyInMinutes data;
     d_servings := det_servings data;
     d_sourceUrl := str_or (det_sourceUrl data) (det_spoonacularSourceUrl data);
     d_ingredients := default [] (det_extendedIngredients data);
     d_steps :=
       match analyzed_steps (default [] (det_analyzedInstructions data)) with
       | step :: steps => step :: steps
       | [] =>
         match det_instructions data with
         | Some text => if PyStr.truthy text then [text] else []
         | None => []
         end
       end |}.

(** [spoonacular_recipe_details(recipe_id)].  The record [Response] carries
    the body of a list reply only; [body] gives the dictionary an
    [/information] reply decodes to ([None] when [r.json()], or reading the
    dictionary, raises). *)
Definition spoonacular_recipe_details (KEYS : list string) (net : network)
    (body : Response -> option raw_detail) (recipe_id : Z) (w : world) (fs : detail_files)
  : option details * world * detail_files :=
  if (recipe_id =? 0)%Z then (None, w, fs)
  else
    match details_dir fs !! recipe_id with
    | Some cached => (Some cached, w, fs)
    | None =>
      match demo_details_dir fs !! recipe_id with
      | Some demo => (Some demo, w, fs)
      | None =>
        match call_spoonacular KEYS net
                ("/recipes/" +:+ PyStr.of_Z recipe_id +:+ "/information")
                (<["includeNutrition" := "false"]> ∅) w with
        | (inl _, w1) => (None, w1, fs)
        | (inr None, w1) => (None, w1, fs)
        | (inr (Some r), w1) =>
          if negb (status_code r =? 200)%Z then (None, w1, fs)
          else
            match body r with
            | None => (None, w1, fs)
            | Some data =>
              let details := details_of data in
              (Some details, w1,
               if disk_writable w1
               then {| details_dir := <[recipe_id := details]> (details_dir fs);
                       demo_details_dir := demo_details_dir fs |}
               else fs)
            end
        end
      end
    end.

(** ** Further code: training-side text ([model_trainer.py], lines 15-23) *)

(** The argument of [_prep_text_list]: a list, a string, or anything else. *)
Inductive ingredients_cell :=
  | CellList (items : list string)
  | CellStr (text : string)
  | CellOther.

(** [_prep_text_list(x)] *)
Definition _prep_text_list (x : ingredients_cell) : string :=
  match x with
  | CellList items =>
    PyStr.join " "
      (map (fun i => PyStr.replace_char " " "_" (PyStr.strip (PyStr.lower i))) items)
  | CellStr text =>
    let parts :=
      map (fun p => PyStr.replace_char " " "_" (PyStr.lower (PyStr.strip p)))
          (filter (fun p => PyStr.truthy (PyStr.strip p) = true)
                  (str_split "," (PyStr.replace_char ";" "," text))) in
    PyStr.join " " parts
  | CellOther => ""
  end.

(** ** Further code: the shopping list ([shopping_list.py], lines 4-14) *)

(** [add_to_list(shopping_list, item)]: the list after [append]. *)
Definition add_to_list {A} (shopping_list : list A) (item : A) : list A :=
  shopping_list ++ [item].

(** [remove_from_list(shopping_list, index)]: the list after the guarded [pop]. *)
Definition remove_from_list {A} (shopping_list : list A) (index : Z) : list A :=
  if ((0 <=? index) && (index <? Z.of_nat (length shopping_list)))%Z
  then delete (Z.to_nat index) shopping_list
  else shopping_list.

(** ** Notions used in the further statements *)

(** An image field a consumer can use: none, or an absolute reference. *)
Definition image_ok (image : option string) : Prop :=
  match image with
  | Some u => is_absolute u = true
  | None => True
  end.

(** Every entry of the list cache carries a non-empty payload. *)
Definition cache_payloads_nonempty (w : world) : Prop :=
  forall k e, read_list_cache w !! k = Some e -> entry_data e <> [].

(** The key a list request works under, in either mode. *)
Definition key_of_request (include_ingredients : list string) (diet : option string)
    (number : Z) (w : world) : string :=
  if offline_mode w then offline_key include_ingredients diet number
  else request_key include_ingredients diet number.

(** The character does not occur in the string. *)
Definition free_of (c : ascii) (s : string) : Prop := PyStr.contains_char c s = false.

(** The two names differ in the case of their letters at most. *)
Definition same_up_to_case (a b : string) : Prop := PyStr.lower a = PyStr.lower b.

(** The string does not start with white space. *)
Definition no_lead (s : string) : Prop :=
  match s with
  | EmptyString => True
  | String c _ => PyStr.is_space c = false
  end.

(** The two worlds agree on what no list request changes: the offline
    switch, the state of the disk, the demo file and the clock. *)
Definition same_settings (w w' : world) : Prop :=
  offline_mode w' = offline_mode w /\ disk_writable w' = disk_writable w
  /\ demo_file w' = demo_file w /\ now w' = now w.

(** The score order never leaves two scores unordered. *)
Definition score_total `{Scoring} : Prop :=
  forall x y : Score, score_leb x y = true \/ score_leb y x = true.

(** ** Further sample inputs *)

Definition raw_pancake : raw_recipe :=
  {| raw_id := Some 42%Z; raw_title := Some "Pancakes"; raw_image := Some "pancakes.jpg";
     raw_imageType := Some "jpg"; raw_usedIngredientCount := Some 2%Z;
     raw_missedIngredientCount := None; raw_sourceUrl := None;
     raw_spoonacularSourceUrl := Some "https://spoonacular.com/pancakes-42";
     raw_readyInMinutes := Some 15%Z; raw_servings := Some 4%Z |}.

(** Every request is answered with 200 and one record. *)
Definition net_one_result : network :=
  fun _ _ => Replied {| status_code := 200; json := Some [raw_pancake] |}.

(** A world whose pool index points outside [sample_pool]. *)
Definition lost_index_world : world := set_key_index 7 stale_world.

Definition raw_pancake_detail : raw_detail :=
  {| det_id := Some 42%Z; det_title := Some "Pancakes"; det_image := None;
     det_imageType := Some "jpg"; det_readyInMinutes := Some 15%Z; det_servings := Some 4%Z;
     det_sourceUrl := Some ""; det_spoonacularSourceUrl := Some "https://spoonacular.com/pancakes-42";
     det_extendedIngredients := None;
     det_analyzedInstructions :=
       Some [ {| inst_steps := Some [Some "Mix."; Some ""; None; Some "Fry."] |};
              {| inst_steps := None |} ];
     det_instructions := Some "Mix, then fry." |}.

(** Every [/information] reply decodes to [raw_pancake_detail]. *)
Definition body_pancake : Response -> option raw_detail := fun _ => Some raw_pancake_detail.

Definition no_detail_files : detail_files :=
  {| details_dir := ∅; demo_details_dir := ∅ |}.

(** * Properties *)

(** ** Cache key *)

Example cache_key_ex1 :
  _cache_key ["Egg"; " Milk "] (Some "Vegan") 10 = "egg,milk|vegan|10".
Proof. vm_compute. reflexivity. Qed.

Example cache_key_ex2 :
  _cache_key ["egg"; "egg"] None 0 = "egg,egg|none|10".
Proof. vm_compute. reflexivity. Qed.

Lemma sorted_Permutation (l1 l2 : list string) :
  l1 ≡ₚ l2 -> PyStr.sorted l1 = PyStr.sorted l2.
Proof.
  intros Hp. unfold PyStr.sorted.
  apply (Sorted_unique String.le).
  - apply Sorted_merge_sort; apply _.
  - apply Sorted_merge_sort; apply _.
  - rewrite !merge_sort_Permutation. exact Hp.
Qed.

Lemma normalized_names_Permutation (l1 l2 : list string) :
  l1 ≡ₚ l2 -> normalized_names l1 ≡ₚ normalized_names l2.
Proof.
  intros Hp. unfold normalized_names.
  apply Permutation_map. by rewrite Hp.
Qed.

Lemma cache_key_unfold (l : list string) (d : option string) (n : Z) :
  _cache_key l d n =
  PyStr.strip (PyStr.join "," (PyStr.sorted (normalized_names l)))
    +:+ "|" +:+ key_diet d +:+ "|" +:+ PyStr.of_Z (number_or_10 n).
Proof. reflexivity. Qed.

(** C1, as the code has it: the cache key depends on the ingredient list
    only through the multiset of its non-empty names after trimming and
    lower-casing, on the diet only through its lower-cased form (["none"]
    when absent) and on the count.  So reordering and case changes of the
    names leave the key unchanged; repeating a name does not. *)
Theorem cache_key_invariant (l1 l2 : list string) (d1 d2 : option string) (n : Z) :
  normalized_names l1 ≡ₚ normalized_names l2 ->
  key_diet d1 = key_diet d2 ->
  _cache_key l1 d1 n = _cache_key l2 d2 n.
Proof.
  intros Hl Hd. rewrite !cache_key_unfold.
  rewrite (sorted_Permutation _ _ Hl), Hd. reflexivity.
Qed.

Lemma cache_key_invariant_witness :
  _cache_key ["Egg"; "Milk"] (Some "vegan") 10 = _cache_key ["milk"; "egg"] (Some "Vegan") 10.
Proof.
  apply (cache_key_invariant ["Egg"; "Milk"] ["milk"; "egg"] (Some "vegan") (Some "Vegan") 10).
  - vm_compute. apply perm_swap.
  - vm_compute. reflexivity.
Defined.

(** Reordering the request leaves the key unchanged. *)
Lemma cache_key_reorder (l1 l2 : list string) (d : option string) (n : Z) :
  l1 ≡ₚ l2 -> _cache_key l1 d n = _cache_key l2 d n.
Proof.
  intros Hp. rewrite !cache_key_unfold.
  by rewrite (sorted_Permutation _ _ (normalized_names_Permutation _ _ Hp)).
Qed.

(** C1 as stated fails: two requests with the same set of names, one of
    them naming an ingredient twice, get different keys. *)
Lemma cache_key_duplicates_differ :
  ~ (forall (l1 l2 : list string) (d : option string) (n : Z),
        ingredient_set l1 = ingredient_set l2 ->
        _cache_key l1 d n = _cache_key l2 d n).
Proof.
  intros Hall.
  specialize (Hall ["egg"] ["egg"; "egg"] None 10%Z).
  assert (Hset : ingredient_set ["egg"] = ingredient_set ["egg"; "egg"]).
  { unfold ingredient_set. vm_compute normalized_names. set_solver. }
  specialize (Hall Hset). vm_compute in Hall. discriminate Hall.
Qed.

(** ** Freshness *)

Lemma is_fresh_iff (now ts days : Z) :
  _is_fresh now (Some ts) days = true <-> (now - ts <= timedelta days)%Z.
Proof. unfold _is_fresh. apply Z.leb_le. Qed.

(** C8: freshness is the test [now - timestamp <= TTL] on the three values
    alone, boundary included: with the TTL of three days an entry stamped
    now is fresh, one stamped exactly three days ago is fresh, and one
    stamped three days and one microsecond ago is not. *)
Theorem is_fresh_boundary (now : Z) :
  (forall ts days, _is_fresh now (Some ts) days = true <-> (now - ts <= timedelta days)%Z)
  /\ _is_fresh now (Some now) CACHE_TTL_DAYS = true
  /\ _is_fresh now (Some (now - timedelta CACHE_TTL_DAYS)%Z) CACHE_TTL_DAYS = true
  /\ _is_fresh now (Some (now - timedelta CACHE_TTL_DAYS - 1)%Z) CACHE_TTL_DAYS = false.
Proof.
  split; [intros; apply is_fresh_iff|].
  unfold _is_fresh, timedelta, CACHE_TTL_DAYS, MICROS_PER_DAY.
  repeat split.
  - apply Z.leb_le. lia.
  - apply Z.leb_le. lia.
  - apply Z.leb_gt. lia.
Qed.

(** A time stamp that does not parse is never fresh. *)
Lemma is_fresh_unparsed (now days : Z) : _is_fresh now None days = false.
Proof. reflexivity. Qed.

(** ** Image references *)

Example fix_image_url_ex1 :
  _fix_image_url (Some "abc.jpg") None None = Some "https://img.spoonacular.com/recipes/abc.jpg".
Proof. vm_compute. reflexivity. Qed.

Example fix_image_url_ex2 :
  _fix_image_url None (Some 123%Z) (Some "jpg")
  = Some "https://img.spoonacular.com/recipes/123-556x370.jpg".
Proof. vm_compute. reflexivity. Qed.

Example fix_image_url_ex3 : _fix_image_url None None None = None.
Proof. reflexivity. Qed.

Example fix_image_url_ex4 :
  _fix_image_url (Some " https://x.org/a.png  ") None None = Some "https://x.org/a.png".
Proof. vm_compute. reflexivity. Qed.

Lemma build_img_from_id_truthy (rid : option Z) (ty : option string) (b : string) :
  _build_img_from_id rid ty = Some b -> PyStr.truthy b = true /\ is_absolute b = true.
Proof.
  unfold _build_img_from_id.
  destruct rid as [n|]; [|discriminate].
  destruct ty as [t|]; [|discriminate].
  destruct (PyStr.truthy t); [|discriminate].
  intros [= <-]. split; reflexivity.
Qed.

Lemma fix_image_url_unfold (val : option string) (rid : option Z) (ty : option string) :
  _fix_image_url val rid ty =
  let v := PyStr.strip (default "" val) in
  if is_absolute v then Some v
  else if is_image_file_name v then Some (CDN_BASE +:+ v)
  else _build_img_from_id rid ty.
Proof.
  assert (Hb : match _build_img_from_id rid ty with
               | Some b => if PyStr.truthy b then Some b else None
               | None => None
               end = _build_img_from_id rid ty).
  { destruct (_build_img_from_id rid ty) as [b|] eqn:E; [|reflexivity].
    apply build_img_from_id_truthy in E as [-> _]. reflexivity. }
  unfold _fix_image_url. rewrite Hb. clear Hb.
  destruct val as [s|]; simpl.
  - unfold is_absolute, is_image_file_name.
    destruct (PyStr.strip s) as [|c v]; [reflexivity|].
    reflexivity.
  - reflexivity.
Qed.

(** C7, as the code has it: with [v] the image value trimmed (empty when
    there is none), a [v] that starts with [http://], [https://] or
    [data:] is returned as it is; otherwise a [v] without [/] that ends in
    [.jpg], [.jpeg] or [.png] is prefixed with the CDN base; otherwise the
    result is the URL built from id and image type,
    [<cdn-base><id>-556x370.<type>], which exists exactly when the id is
    an integer and the type is a non-empty string; otherwise there is no
    image.  Whatever is returned is an absolute reference. *)
Theorem fix_image_url_resolution (val : option string) (rid : option Z) (ty : option string) :
  let v := PyStr.strip (default "" val) in
  (is_absolute v = true -> _fix_image_url val rid ty = Some v)
  /\ (is_absolute v = false -> is_image_file_name v = true ->
      _fix_image_url val rid ty = Some (CDN_BASE +:+ v))
  /\ (is_absolute v = false -> is_image_file_name v = false ->
      _fix_image_url val rid ty = _build_img_from_id rid ty)
  /\ (forall n t, rid = Some n -> ty = Some t -> t <> "" ->
      _build_img_from_id rid ty = Some (CDN_BASE +:+ PyStr.of_Z n +:+ "-556x370." +:+ t))
  /\ (_build_img_from_id rid ty = None <-> rid = None \/ PyStr.or_else ty "" = "")
  /\ (forall u, _fix_image_url val rid ty = Some u -> is_absolute u = true).
Proof.
  intros v. rewrite fix_image_url_unfold. fold v. cbv zeta.
  repeat split.
  - intros ->. reflexivity.
  - intros -> ->. reflexivity.
  - intros -> ->. reflexivity.
  - intros n t -> -> Ht. unfold _build_img_from_id.
    destruct t as [|c t]; [congruence|reflexivity].
  - unfold _build_img_from_id, PyStr.or_else.
    destruct rid as [n|]; [|auto].
    destruct ty as [t|]; [|auto].
    destruct t as [|c t]; simpl; [auto|discriminate].
  - unfold _build_img_from_id, PyStr.or_else.
    intros [E|E]; [rewrite E; reflexivity|].
    destruct rid as [n|]; [|reflexivity].
    destruct ty as [t|]; [|reflexivity].
    destruct t as [|c t]; simpl in *; [reflexivity|discriminate].
  - intros u. destruct (is_absolute v) eqn:Ha.
    + intros [= <-]. exact Ha.
    + destruct (is_image_file_name v).
      * intros [= <-]. reflexivity.
      * intros E. apply build_img_from_id_truthy in E as [_ E]. exact E.
Qed.

Lemma fix_image_url_resolution_witness :
  _fix_image_url (Some "abc.jpg") None None = Some (CDN_BASE +:+ "abc.jpg")
  /\ _fix_image_url (Some "http://x/y.gif") None None = Some "http://x/y.gif"
  /\ _fix_image_url None (Some 123%Z) (Some "jpg")
     = Some (CDN_BASE +:+ PyStr.of_Z 123 +:+ "-556x370." +:+ "jpg").
Proof.
  split; [|split].
  - apply (fix_image_url_resolution (Some "abc.jpg") None None); vm_compute; reflexivity.
  - apply (fix_image_url_resolution (Some "http://x/y.gif") None None); vm_compute; reflexivity.
  - destruct (fix_image_url_resolution None (Some 123%Z) (Some "jpg")) as (_ & _ & H3 & H4 & _).
    rewrite H3 by (vm_compute; reflexivity).
    apply H4; [reflexivity | reflexivity | discriminate].
Defined.

(** C7 as stated fails: a name without a path separator that does not end
    in one of the three extensions is not prefixed with the CDN base. *)
Lemma fix_image_url_bare_name_not_prefixed :
  ~ (forall (s : string) (rid : option Z) (ty : option string),
        let v := PyStr.strip s in
        PyStr.truthy v = true -> is_absolute v = false ->
        PyStr.contains_char "/" v = false ->
        _fix_image_url (Some s) rid ty = Some (CDN_BASE +:+ v)).
Proof.
  intros Hall.
  specialize (Hall "abc.gif" None None eq_refl eq_refl eq_refl).
  vm_compute in Hall. discriminate Hall.
Qed.

(** ... and an absolute URL with blanks around it is trimmed, not returned
    unchanged. *)
Lemma fix_image_url_trims :
  _fix_image_url (Some "https://x.org/a.png ") None None = Some "https://x.org/a.png".
Proof. vm_compute. reflexivity. Qed.

(** ** Diet names *)

Example diet_norm_ex1 : diet_norm (Some "Keto") = Some "ketogenic".
Proof. vm_compute. reflexivity. Qed.

Example diet_norm_ex2 : diet_norm (Some "vegan") = Some "vegan".
Proof. vm_compute. reflexivity. Qed.

Example diet_norm_ex3 : diet_norm None = Some "".
Proof. vm_compute. reflexivity. Qed.

Lemma diet_map_lookup (k : string) :
  diet_map !! Some k =
  if decide (k = "keto") then Some (Some "ketogenic")
  else if decide (k = "gluten-free") then Some (Some "gluten free")
  else if decide (k = "paleo") then Some (Some "paleolithic")
  else if decide (k = "none") then Some None
  else None.
Proof.
  unfold diet_map.
  repeat (case_decide; [subst k; reflexivity|rewrite lookup_insert_ne by congruence]).
  rewrite lookup_insert_ne by discriminate. apply lookup_empty.
Qed.

Lemma complex_search_params_diet (ingredients : list string) (dn : option string) (number : Z) :
  complex_search_params ingredients dn number !! "diet" =
  match dn with
  | Some d => if PyStr.truthy d then Some d else None
  | None => None
  end.
Proof.
  unfold complex_search_params.
  assert (Hn : forall a b c d e f : string,
             (<["includeIngredients" := a]> (<["fillIngredients" := b]>
              (<["addRecipeInformation" := c]> (<["instructionsRequired" := d]>
              (<["number" := e]> (<["sort" := f]> (∅ : gmap string string)))))))
             !! "diet" = None).
  { intros. rewrite !lookup_insert_ne by discriminate. apply lookup_empty. }
  destruct dn as [d|]; [|apply Hn].
  destruct (PyStr.truthy d); [apply lookup_insert_eq|apply Hn].
Qed.

(** C6, as the code has it: the diet filter sent with the primary search
    is ["ketogenic"] for keto, ["gluten free"] for gluten-free and
    ["paleolithic"] for paleo, whatever the case of the letters; there is
    none for ["none"] (in any case), for an absent diet and for the empty
    string; every other name is sent to the provider as it was given. *)
Theorem diet_sent_spec (ingredients : list string) (diet : option string) (number : Z) :
  diet_sent ingredients diet number =
  let d := PyStr.or_else diet "" in
  if decide (PyStr.lower d = "keto") then Some "ketogenic"
  else if decide (PyStr.lower d = "gluten-free") then Some "gluten free"
  else if decide (PyStr.lower d = "paleo") then Some "paleolithic"
  else if decide (PyStr.lower d = "none") then None
  else if decide (d = "") then None
  else Some d.
Proof.
  unfold diet_sent, diet_norm. rewrite complex_search_params_diet, diet_map_lookup.
  cbv zeta.
  repeat (case_decide; [reflexivity|]).
  destruct (PyStr.or_else diet "") as [|c d]; reflexivity.
Qed.

(** C6 as stated fails: a diet name the table does not know is not
    dropped; ["vegan"] goes out as the filter ["vegan"]. *)
Lemma diet_unrecognized_is_sent :
  ~ (forall (ingredients : list string) (diet : option string) (number : Z),
        ~ recognized_diet diet -> diet_sent ingredients diet number = None).
Proof.
  intros Hall.
  assert (Hn : ~ recognized_diet (Some "vegan")).
  { unfold recognized_diet. vm_compute PyStr.lower.
    rewrite !elem_of_cons, elem_of_nil. intros [H|[H|[H|[]]]]; discriminate H. }
  specialize (Hall [] (Some "vegan") 10%Z Hn).
  unfold diet_sent in Hall. rewrite complex_search_params_diet in Hall.
  vm_compute in Hall. discriminate Hall.
Qed.

(** ** Key rotation *)

(** C10: with an empty pool the call sends nothing, raises nothing and
    returns the "no response" value, whatever the endpoint and the
    parameters; the only change to the state is the pool index, which is 0
    afterwards. *)
Theorem call_spoonacular_empty_pool (net : network) (endpoint : string)
    (params : gmap string string) (w : world) :
  call_spoonacular [] net endpoint params w = (inr None, set_key_index 0 w)
  /\ sent (snd (call_spoonacular [] net endpoint params w)) = sent w
  /\ key_index (snd (call_spoonacular [] net endpoint params w)) = 0.
Proof.
  assert (E : call_spoonacular [] net endpoint params w = (inr None, set_key_index 0 w)).
  { unfold call_spoonacular. simpl. unfold rotate. rewrite Nat.mod_1_r. reflexivity. }
  rewrite E. repeat split.
Qed.

Lemma or_else_Some_empty (k : string) : PyStr.or_else (Some k) "" = k.
Proof. destruct k; reflexivity. Qed.

Lemma request_with_key_insert (endpoint : string) (params : gmap string string) (k key : string) :
  request_with_key endpoint (<["apiKey" := k]> params) key = request_with_key endpoint params key.
Proof. unfold request_with_key. by rewrite insert_insert_eq. Qed.

Lemma same_files_refl (w : world) : same_files w w.
Proof. repeat split. Qed.

Lemma same_files_trans (w1 w2 w3 : world) :
  same_files w1 w2 -> same_files w2 w3 -> same_files w1 w3.
Proof. unfold same_files. intros (?&?&?&?&?) (?&?&?&?&?). repeat split; congruence. Qed.

Lemma current_key_in_pool (KEYS : list string) (w : world) :
  key_index w < length KEYS ->
  current_key KEYS w = inr (slot_key KEYS (key_index w))
  /\ exists k0, KEYS !! key_index w = Some k0.
Proof.
  intros Hi. destruct (lookup_lt_is_Some_2 KEYS (key_index w) Hi) as [k0 Hk].
  unfold current_key, slot_key. rewrite Hk, or_else_Some_empty.
  destruct KEYS; [discriminate|]. eauto.
Qed.

Lemma rotate_index (n i j : nat) : n <> 0 -> (((i + 1) mod n + j) mod n = (i + S j) mod n)%nat.
Proof.
  intros Hn. rewrite Nat.Div0.add_mod_idemp_l. f_equal. lia.
Qed.

(** The loop of [call_spoonacular], for any number of rounds left. *)
Lemma call_loop_spec (KEYS : list string) (net : network) (endpoint : string) :
  let n := length KEYS in
  1 <= n ->
  forall (rounds : nat) (params : gmap string string) (w : world),
  key_index w < n ->
  exists (res : option Response) (w' : world) (reqs : list request) (j : nat),
    call_loop KEYS net endpoint n rounds params w = (inr res, w')
    /\ same_files w w'
    /\ sent w' = (sent w ++ reqs)%list
    /\ key_index w' = (key_index w + j) mod n
    /\ match res with
       | Some r =>
         j < rounds
         /\ exists reqs0,
             reqs = (reqs0 ++ [request_with_key endpoint params (slot_key KEYS (key_index w'))])%list
             /\ length reqs0 <= j
             /\ all_failed net (length (sent w)) reqs0
             /\ net (length (sent w) + length reqs0)
                    (request_with_key endpoint params (slot_key KEYS (key_index w')))
                = Replied r
             /\ rotate_signal (status_code r) = false
       | None => j = rounds /\ length reqs <= j /\ all_failed net (length (sent w)) reqs
       end
    /\ (no_blank_key KEYS ->
        length reqs = j + (match res with Some _ => 1 | None => 0 end)
        /\ uses_slots KEYS endpoint params (key_index w) reqs).
Proof.
  intros n Hn rounds.
  assert (Hn0 : n <> 0) by lia.
  induction rounds as [|rounds IH]; intros params w Hi.
  - exists None, w, [], 0. simpl.
    split; [reflexivity|]. split; [apply same_files_refl|].
    split; [by rewrite app_nil_r|].
    split; [rewrite Nat.add_0_r, Nat.mod_small; [reflexivity|exact Hi]|].
    split; [split; [reflexivity|split; [lia|]]; intros k rq Hk; discriminate|].
    intros _. split; [reflexivity|]. intros k rq Hk. discriminate.
  - destruct (current_key_in_pool KEYS w Hi) as [Hck [k0 Hk0]].
    simpl. rewrite Hck. fold n.
    set (key := slot_key KEYS (key_index w)).
    assert (Hrot : forall w0, key_index w0 = key_index w -> key_index (rotate n w0) < n).
    { intros w0 E. unfold rotate. simpl. apply Nat.mod_upper_bound. exact Hn0. }
    destruct (PyStr.truthy key) eqn:Hkey.
    + (* an attempt goes out *)
      set (req := {| endpoint := endpoint; params := <["apiKey":=key]> params |}).
      assert (Hreq : req = request_with_key endpoint params key) by reflexivity.
      assert (Hcont :
        failed_reply (net (length (sent w)) req) = true ->
        exists res w' reqs j,
          call_loop KEYS net endpoint n rounds (<["apiKey":=key]> params)
                    (rotate n (log_request req w)) = (inr res, w')
          /\ same_files w w'
          /\ sent w' = (sent w ++ reqs)%list
          /\ key_index w' = (key_index w + j) mod n
          /\ match res with
             | Some r =>
               j < S rounds
               /\ exists reqs0,
                   reqs = (reqs0 ++ [request_with_key endpoint params (slot_key KEYS (key_index w'))])%list
                   /\ length reqs0 <= j
                   /\ all_failed net (length (sent w)) reqs0
                   /\ net (length (sent w) + length reqs0)
                          (request_with_key endpoint params (slot_key KEYS (key_index w')))
                      = Replied r
                   /\ rotate_signal (status_code r) = false
             | None => j = S rounds /\ length reqs <= j /\ all_failed net (length (sent w)) reqs
             end
          /\ (no_blank_key KEYS ->
              length reqs = j + (match res with Some _ => 1 | None => 0 end)
              /\ uses_slots KEYS endpoint params (key_index w) reqs)).
      { intros Hfail.
        destruct (IH (<["apiKey":=key]> params) (rotate n (log_request req w)))
          as (res & w' & reqs' & j' & Hcall & Hsf & Hsent & Hidx & Hres & Hnb).
        { apply Hrot. reflexivity. }
        assert (Hlen : length (sent (rotate n (log_request req w))) = S (length (sent w))).
        { simpl. rewrite length_app. simpl. lia. }
        assert (Hfl : forall l, all_failed net (S (length (sent w))) l ->
                                all_failed net (length (sent w)) (req :: l)).
        { intros l Hl [|k] rq Hk; simpl in Hk.
          - injection Hk as <-. rewrite Nat.add_0_r. exact Hfail.
          - replace (length (sent w) + S k) with (S (length (sent w)) + k) by lia.
            apply Hl. exact Hk. }
        exists res, w', (req :: reqs'), (S j').
        split; [exact Hcall|].
        split; [eapply same_files_trans; [|exact Hsf]; repeat split|].
        split; [rewrite Hsent; simpl; by rewrite <- app_assoc|].
        split; [rewrite Hidx; simpl; apply rotate_index; exact Hn0|].
        split.
        - destruct res as [r|].
          + destruct Hres as (Hj & reqs0 & -> & Hl0 & Hf0 & Hnet & Hsig).
            rewrite request_with_key_insert in *. rewrite Hlen in *.
            split; [lia|]. exists (req :: reqs0).
            split; [reflexivity|]. split; [simpl; lia|]. split; [apply Hfl, Hf0|].
            split; [|exact Hsig].
            simpl. rewrite <- Hnet. f_equal. lia.
          + destruct Hres as (-> & Hl & Hf). rewrite Hlen in Hf.
            split; [reflexivity|]. split; [simpl; lia|]. apply Hfl, Hf.
        - intros Hblank. destruct (Hnb Hblank) as [Hl Hu].
          split; [simpl; lia|].
          intros [|k] rq Hk; simpl in Hk.
          + injection Hk as <-. rewrite Nat.add_0_r, Nat.mod_small by exact Hi. exact Hreq.
          + specialize (Hu k rq Hk). rewrite request_with_key_insert in Hu.
            rewrite Hu. simpl. fold n. by rewrite rotate_index. }
      destruct (net (length (sent w)) req) as [r|] eqn:Hnet.
      * destruct (rotate_signal (status_code r)) eqn:Hsig.
        -- apply Hcont. simpl. exact Hsig.
        -- exists (Some r), (log_request req w), [req], 0.
           split; [reflexivity|]. split; [repeat split|]. split; [reflexivity|].
           split; [simpl; rewrite Nat.add_0_r, Nat.mod_small; [reflexivity|exact Hi]|].
           split.
           ++ split; [lia|]. exists []. simpl. fold key. rewrite <- Hreq.
              split; [reflexivity|]. split; [lia|].
              split; [intros k rq Hk; discriminate|].
              split; [|exact Hsig]. rewrite Nat.add_0_r. exact Hnet.
           ++ intros _. split; [reflexivity|].
              intros [|k] rq Hk; simpl in Hk; [|discriminate].
              injection Hk as <-. rewrite Nat.add_0_r, Nat.mod_small by exact Hi. exact Hreq.
      * apply Hcont. reflexivity.
    + (* a blank slot: rotate without an attempt *)
      destruct (IH params (rotate n w)) as (res & w' & reqs & j' & Hcall & Hsf & Hsent & Hidx & Hres & Hnb).
      { apply Hrot. reflexivity. }
      exists res, w', reqs, (S j').
      split; [exact Hcall|].
      split; [eapply same_files_trans; [|exact Hsf]; repeat split|].
      split; [exact Hsent|].
      split; [rewrite Hidx; simpl; apply rotate_index; exact Hn0|].
      split.
      * destruct res as [r|].
        -- destruct Hres as (Hj & reqs0 & -> & Hl0 & Hf0 & Hnet & Hsig).
           split; [lia|]. exists reqs0. simpl in *. repeat split; auto.
        -- destruct Hres as (-> & Hl & Hf). repeat split; auto.
      * intros Hblank. exfalso.
        unfold no_blank_key in Hblank. rewrite Forall_lookup in Hblank.
        specialize (Hblank _ _ Hk0). unfold key, slot_key in Hkey.
        rewrite Hk0 in Hkey. simpl in Hkey. congruence.
Qed.

(** C2: with a pool of [n >= 1] keys and the index inside the pool, the
    call never raises and sends at most [n] requests.  Every request but
    the last got a rotate-signal status or no reply, and the index moved on
    by one, modulo [n], for each of them.  If a result is returned, it is
    the reply to the last request, its status is none of 401, 402, 429, the
    index has moved by fewer than [n] slots and it is the slot whose key
    that request carried.  If nothing is returned (the "no response"
    value), every request failed and the index has moved by exactly [n]
    slots, which brings it back to where it started.  When no key of the
    pool is blank, the [k]-th request carries the key of the [k]-th slot
    after the starting one, so the count of failed attempts is the count
    of rotations. *)
Theorem call_spoonacular_rotation (KEYS : list string) (net : network) (endpoint : string)
    (params : gmap string string) (w : world) :
  let n := length KEYS in
  1 <= n ->
  key_index w < n ->
  exists (res : option Response) (w' : world) (reqs : list request) (j : nat),
    call_spoonacular KEYS net endpoint params w = (inr res, w')
    /\ same_files w w'
    /\ sent w' = (sent w ++ reqs)%list
    /\ length reqs <= n
    /\ key_index w' = (key_index w + j) mod n
    /\ key_index w' < n
    /\ match res with
       | Some r =>
         j < n
         /\ exists reqs0,
             reqs = (reqs0 ++ [request_with_key endpoint params (slot_key KEYS (key_index w'))])%list
             /\ all_failed net (length (sent w)) reqs0
             /\ net (length (sent w) + length reqs0)
                    (request_with_key endpoint params (slot_key KEYS (key_index w')))
                = Replied r
             /\ rotate_signal (status_code r) = false
       | None =>
         j = n /\ key_index w' = key_index w /\ all_failed net (length (sent w)) reqs
       end
    /\ (no_blank_key KEYS ->
        length reqs = j + (match res with Some _ => 1 | None => 0 end)
        /\ uses_slots KEYS endpoint params (key_index w) reqs).
Proof.
  intros n Hn Hi.
  destruct (call_loop_spec KEYS net endpoint Hn n params w Hi)
    as (res & w' & reqs & j & Hcall & Hsf & Hsent & Hidx & Hres & Hnb).
  fold n in Hcall, Hidx.
  exists res, w', reqs, j.
  split; [unfold call_spoonacular; fold n; rewrite Nat.max_r by lia; exact Hcall|].
  split; [exact Hsf|]. split; [exact Hsent|].
  split.
  { destruct res as [r|].
    - destruct Hres as (Hj & reqs0 & -> & Hl & _). rewrite length_app. simpl. lia.
    - destruct Hres as (-> & Hl & _). exact Hl. }
  split; [exact Hidx|].
  split; [rewrite Hidx; apply Nat.mod_upper_bound; lia|].
  split; [|exact Hnb].
  destruct res as [r|].
  - destruct Hres as (Hj & reqs0 & Hr & Hl & Hf & Hnet & Hsig).
    split; [exact Hj|]. exists reqs0. auto.
  - destruct Hres as (-> & Hl & Hf).
    split; [reflexivity|]. split; [|exact Hf].
    rewrite Hidx.
    replace (key_index w + n) with (key_index w + 1 * n) by lia.
    rewrite Nat.Div0.mod_add. apply Nat.mod_small. exact Hi.
Qed.

Lemma call_spoonacular_rotation_witness :
  exists (res : option Response) (w' : world),
    call_spoonacular sample_pool net_third_succeeds "/recipes/complexSearch" ∅ sample_world
    = (inr res, w')
    /\ key_index w' < 3.
Proof.
  destruct (call_spoonacular_rotation sample_pool net_third_succeeds
              "/recipes/complexSearch" ∅ sample_world)
    as (res & w' & reqs & j & Hcall & _ & _ & _ & _ & Hlt & _).
  - simpl. lia.
  - simpl. lia.
  - exists res, w'. split; [exact Hcall | exact Hlt].
Defined.

(** The scenarios of the specification: three keys, the first two attempts
    turned away and the third successful; then all three turned away. *)
Example rotation_third_key_succeeds :
  let out := call_spoonacular sample_pool net_third_succeeds "/recipes/complexSearch" ∅
                              sample_world in
  fst out = inr (Some (response_with 200))
  /\ key_index (snd out) = 2
  /\ length (sent (snd out)) = 3
  /\ (params <$> last (sent (snd out))) = Some (<["apiKey" := "key-three"]> ∅).
Proof. vm_compute. repeat split. Qed.

Example rotation_all_rejected :
  let out := call_spoonacular sample_pool net_all_rejected "/recipes/complexSearch" ∅
                              (set_key_index 1 sample_world) in
  fst out = inr None
  /\ key_index (snd out) = 1
  /\ length (sent (snd out)) = 3.
Proof. vm_compute. repeat split. Qed.

(** ** The list request *)

Lemma call_loop_frame (KEYS : list string) (net : network) (endpoint : string) (n rounds : nat)
    (params : gmap string string) (w : world) :
  same_files w (snd (call_loop KEYS net endpoint n rounds params w)).
Proof.
  revert params w. induction rounds as [|rounds IH]; intros params w; simpl.
  - apply same_files_refl.
  - destruct (current_key KEYS w) as [e|k]; [apply same_files_refl|].
    destruct (PyStr.truthy k).
    + destruct (net _ _) as [r|].
      * destruct (rotate_signal (status_code r)); [|repeat split].
        eapply same_files_trans; [|apply IH]. repeat split.
      * eapply same_files_trans; [|apply IH]. repeat split.
    + eapply same_files_trans; [|apply IH]. repeat split.
Qed.

Lemma strategy_frame (KEYS : list string) (net : network) (endpoint : string)
    (params : gmap string string) (normalise : raw_recipe -> summary) (w : world) :
  same_files w (snd (strategy KEYS net endpoint params normalise w)).
Proof.
  unfold strategy, call_spoonacular.
  pose proof (call_loop_frame KEYS net endpoint (Nat.max 1 (length KEYS))
                (Nat.max 1 (length KEYS)) params w) as Hf.
  destruct (call_loop _ _ _ _ _ _ _) as [[e|[r|]] w1]; simpl in *; try exact Hf.
  destruct (status_code r =? 200)%Z; [|exact Hf].
  destruct (json r) as [results|]; [|exact Hf].
  destruct (map normalise results); exact Hf.
Qed.

Lemma load_demo_same_files (w w' : world) :
  same_files w w' -> _load_demo_recipes w' = _load_demo_recipes w.
Proof. intros (_ & _ & _ & Hd & _). unfold _load_demo_recipes. by rewrite Hd. Qed.

Lemma stale_or_demo_same_files (entry : option cache_entry) (w w' : world) :
  same_files w w' -> stale_or_demo entry w' = stale_or_demo entry w.
Proof. intros Hs. destruct entry; simpl; [reflexivity|by apply load_demo_same_files]. Qed.

(** A result of the key-rotating call is the reply to one of its requests. *)
Lemma call_loop_result (KEYS : list string) (net : network) (endpoint : string) (n rounds : nat)
    (params : gmap string string) (w w' : world) (r : Response) :
  call_loop KEYS net endpoint n rounds params w = (inr (Some r), w') ->
  exists k rq, net k rq = Replied r.
Proof.
  revert params w. induction rounds as [|rounds IH]; intros params w; simpl; [discriminate|].
  destruct (current_key KEYS w) as [e|k]; [discriminate|].
  destruct (PyStr.truthy k); [|apply IH].
  destruct (net _ _) as [r'|] eqn:Hnet; [|apply IH].
  destruct (rotate_signal (status_code r')); [apply IH|].
  intros [= <- <-]. eauto.
Qed.

Lemma strategy_useless (KEYS : list string) (net : network) (endpoint : string)
    (params : gmap string string) (normalise : raw_recipe -> summary) (w : world) :
  (forall k rq, useless_reply (net k rq) = true) ->
  forall l w', strategy KEYS net endpoint params normalise w <> (Found l, w').
Proof.
  intros Hu l w'. unfold strategy, call_spoonacular.
  destruct (call_loop _ _ _ _ _ _ _) as [[e|[r|]] w1] eqn:Hcall; try discriminate.
  destruct (call_loop_result _ _ _ _ _ _ _ _ _ Hcall) as (k & rq & Hnet).
  specialize (Hu k rq). rewrite Hnet in Hu. simpl in Hu.
  destruct (status_code r =? 200)%Z; [|discriminate].
  destruct (json r) as [[|x results]|]; simpl in *; discriminate.
Qed.

(** A provider that only sends useless replies makes both strategies fail,
    whatever the pool and the state. *)
Lemma useless_network_failed (KEYS : list string) (net : network)
    (include_ingredients : list string) (diet : option string) (number : Z) (w : world) :
  (forall k rq, useless_reply (net k rq) = true) ->
  network_failed KEYS net include_ingredients diet number w.
Proof.
  intros Hu. unfold network_failed, primary_search, secondary_search.
  destruct (strategy KEYS net "/recipes/complexSearch" _ _ w) as [[l1| |] w1] eqn:H1.
  - exfalso. exact (strategy_useless _ _ _ _ _ _ Hu _ _ H1).
  - exact I.
  - destruct (strategy KEYS net "/recipes/findByIngredients" _ _ w1) as [[l2| |] w2] eqn:H2.
    + exfalso. exact (strategy_useless _ _ _ _ _ _ Hu _ _ H2).
    + exact I.
    + exact I.
Qed.

(** What a live request returns once the network has let it down. *)
Lemma spoonacular_recipes_fallback (KEYS : list string) (net : network)
    (include_ingredients : list string) (diet : option string) (number : Z) (w : world) :
  offline_mode w = false ->
  network_failed KEYS net include_ingredients diet number w ->
  fst (spoonacular_recipes KEYS net include_ingredients diet number w)
  = stale_or_demo (read_list_cache w !! request_key include_ingredients diet number) w
  /\ list_cache (snd (spoonacular_recipes KEYS net include_ingredients diet number w))
     = list_cache w.
Proof.
  intros Hoff Hfail.
  unfold spoonacular_recipes. rewrite Hoff.
  fold (effective_ingredients include_ingredients).
  fold (request_key include_ingredients diet number).
  set (entry := read_list_cache w !! request_key include_ingredients diet number).
  destruct (fresh_hit entry w) as [data|] eqn:Hhit.
  { unfold fresh_hit in Hhit. destruct entry as [e|]; [|discriminate].
    destruct (_is_fresh _ _ _); [|discriminate]. injection Hhit as <-. split; reflexivity. }
  unfold network_failed in Hfail.
  pose proof (strategy_frame KEYS net "/recipes/complexSearch"
                (complex_search_params (effective_ingredients include_ingredients)
                   (diet_norm diet) number) summary_of_complex w) as Hf1.
  fold (primary_search KEYS net (effective_ingredients include_ingredients)
          (diet_norm diet) number w) in Hf1.
  destruct (primary_search _ _ _ _ _ _) as [[l1| |] w1]; simpl in Hf1.
  - destruct Hfail.
  - split; [apply stale_or_demo_same_files, Hf1 | apply Hf1].
  - pose proof (strategy_frame KEYS net "/recipes/findByIngredients"
                  (find_by_ingredients_params (effective_ingredients include_ingredients) number)
                  summary_of_find w1) as Hf2.
    fold (secondary_search KEYS net (effective_ingredients include_ingredients) number w1) in Hf2.
    pose proof (same_files_trans _ _ _ Hf1 Hf2) as Hf.
    destruct (secondary_search _ _ _ _ _) as [[l2| |] w2]; simpl in *.
    + destruct Hfail.
    + split; [apply stale_or_demo_same_files, Hf | apply Hf].
    + split; [apply stale_or_demo_same_files, Hf | apply Hf].
Qed.

(** C3: in a live request (offline mode is off) for which both network
    strategies fail or come back empty, an entry kept under the key of the
    request and older than the TTL is what is served: the result is its
    payload, not the offline catalogue.  The offline catalogue is served
    by such a request exactly when there is no entry under the key.  The
    cache file is left as it was. *)
Theorem stale_entry_served_on_failure (KEYS : list string) (net : network)
    (include_ingredients : list string) (diet : option string) (number : Z) (w : world) :
  offline_mode w = false ->
  network_failed KEYS net include_ingredients diet number w ->
  let key := request_key include_ingredients diet number in
  let out := spoonacular_recipes KEYS net include_ingredients diet number w in
  (forall e, read_list_cache w !! key = Some e ->
             _is_fresh (now w) (entry_ts e) CACHE_TTL_DAYS = false ->
             fst out = entry_data e)
  /\ (forall e, read_list_cache w !! key = Some e -> fst out = entry_data e)
  /\ (read_list_cache w !! key = None -> fst out = _load_demo_recipes w)
  /\ list_cache (snd out) = list_cache w.
Proof.
  intros Hoff Hfail key out.
  destruct (spoonacular_recipes_fallback KEYS net include_ingredients diet number w Hoff Hfail)
    as [Hres Hcache].
  fold key in Hres. fold out in Hres, Hcache.
  repeat split.
  - intros e He _. rewrite Hres, He. reflexivity.
  - intros e He. rewrite Hres, He. reflexivity.
  - intros He. rewrite Hres, He. reflexivity.
  - exact Hcache.
Qed.

Lemma stale_entry_served_on_failure_witness :
  fst (spoonacular_recipes sample_pool net_down ["egg"] None 10 stale_world)
  = entry_data sample_entry.
Proof.
  assert (Hoff : offline_mode stale_world = false) by reflexivity.
  assert (Hfail : network_failed sample_pool net_down ["egg"] None 10 stale_world).
  { vm_compute. exact I. }
  destruct (stale_entry_served_on_failure sample_pool net_down ["egg"] None 10 stale_world
              Hoff Hfail) as (Hstale & _).
  apply Hstale.
  - vm_compute. reflexivity.
  - vm_compute. reflexivity.
Defined.

(** The same request with nothing in the cache gets the built-in sample. *)
Example no_entry_gets_offline_catalogue :
  fst (spoonacular_recipes sample_pool net_down ["egg"] None 10 sample_world)
  = builtin_demo_recipes.
Proof. vm_compute. reflexivity. Qed.

(** A provider that answers 200 with no record: the stale entry is served
    all the same. *)
Example empty_results_serve_stale_entry :
  fst (spoonacular_recipes sample_pool (fun _ _ => Replied (response_with 200))
                           ["egg"] None 10 stale_world)
  = entry_data sample_entry.
Proof. vm_compute. reflexivity. Qed.

(** Offline mode is the other branch of the function and has a rule of its
    own: no request goes out, and an entry that is not fresh is passed
    over for the offline catalogue. *)
Lemma offline_mode_stale_entry (KEYS : list string) (net : network)
    (include_ingredients : list string) (diet : option string) (number : Z) (w : world)
    (e : cache_entry) :
  offline_mode w = true ->
  read_list_cache w !! offline_key include_ingredients diet number = Some e ->
  fst (spoonacular_recipes KEYS net include_ingredients diet number w)
  = if _is_fresh (now w) (entry_ts e) CACHE_TTL_DAYS then entry_data e
    else _load_demo_recipes w.
Proof.
  intros Hoff He. unfold spoonacular_recipes. rewrite Hoff.
  fold (offline_key include_ingredients diet number). rewrite He. simpl.
  destruct (_is_fresh _ _ _); reflexivity.
Qed.

Lemma offline_mode_never_calls (KEYS : list string) (net : network)
    (include_ingredients : list string) (diet : option string) (number : Z) (w : world) :
  offline_mode w = true ->
  snd (spoonacular_recipes KEYS net include_ingredients diet number w) = w.
Proof.
  intros Hoff. unfold spoonacular_recipes. rewrite Hoff.
  destruct (fresh_hit _ _); reflexivity.
Qed.

(** ** The recommender *)

Example recommend_empty_pantry_ex :
  @recommend_from_pantry sample_scoring sample_artifacts [] 2 (Some "vegan")
  = inr [(row_dal, 0%Z); (row_omelette, 0%Z)].
Proof. vm_compute. reflexivity. Qed.

Example recommend_vegan_ex :
  @recommend_from_pantry sample_scoring sample_artifacts ["Rice"] 2 (Some "vegan")
  = inr [(row_salad, 7%Z); (row_dal, 5%Z)].
Proof. vm_compute. reflexivity. Qed.

Example recommend_no_diet_ex :
  @recommend_from_pantry sample_scoring sample_artifacts ["Rice"] 2 None
  = inr [(row_omelette, 9%Z); (row_salad, 7%Z)].
Proof. vm_compute. reflexivity. Qed.

Lemma head_nonneg {A} (n : Z) (l : list A) : (0 <= n)%Z -> head n l = take (Z.to_nat n) l.
Proof. intros Hn. unfold head. apply Z.leb_le in Hn. by rewrite Hn. Qed.

Lemma head_subseteq {A} (n : Z) (l : list A) : head n l ⊆ l.
Proof. unfold head. destruct (0 <=? n)%Z; apply subseteq_take. Qed.

Lemma pantry_query_blank (pantry_items : list string) :
  blank_pantry pantry_items -> pantry_query pantry_items = "".
Proof.
  intros Hb. unfold pantry_query.
  assert (E : filter (fun i => PyStr.truthy (PyStr.strip i) = true) pantry_items = []).
  { induction Hb as [|i l Hi _ IH]; [reflexivity|].
    rewrite filter_cons_False; [exact IH|]. rewrite Hi. discriminate. }
  rewrite E. reflexivity.
Qed.

Lemma lstrip_empty_iff (s : string) : PyStr.lstrip s = "" <-> all_space s = true.
Proof.
  induction s as [|c s IH]; simpl; [tauto|].
  destruct (PyStr.is_space c); simpl; [exact IH|]. split; discriminate.
Qed.

Lemma all_space_lstrip (s : string) : all_space (PyStr.lstrip s) = all_space s.
Proof.
  induction s as [|c s IH]; simpl; [reflexivity|].
  destruct (PyStr.is_space c) eqn:E; simpl; [exact IH|]. by rewrite E.
Qed.

Lemma all_space_rev_app (s1 s2 : string) :
  all_space (String.rev_app s1 s2) = all_space s1 && all_space s2.
Proof.
  revert s2. induction s1 as [|c s1 IH]; intros s2; simpl; [reflexivity|].
  rewrite IH. simpl. destruct (PyStr.is_space c), (all_space s1); reflexivity.
Qed.

Lemma rev_app_empty (s1 s2 : string) : String.rev_app s1 s2 = "" -> s1 = "" /\ s2 = "".
Proof.
  revert s2. induction s1 as [|c s1 IH]; intros s2; simpl; [auto|].
  intros E. apply IH in E as [_ E]. discriminate E.
Qed.

Lemma strip_empty_iff (s : string) : PyStr.strip s = "" <-> all_space s = true.
Proof.
  unfold PyStr.strip, PyStr.rstrip, String.rev. split.
  - intros E. apply rev_app_empty in E as [E _].
    apply lstrip_empty_iff in E.
    rewrite all_space_rev_app, andb_true_r, all_space_lstrip in E. exact E.
  - intros E.
    assert (E' : PyStr.lstrip (String.rev_app (PyStr.lstrip s) "") = "").
    { apply lstrip_empty_iff. by rewrite all_space_rev_app, andb_true_r, all_space_lstrip. }
    rewrite E'. reflexivity.
Qed.

Lemma is_space_lower_char (c : ascii) : PyStr.is_space (PyStr.lower_char c) = PyStr.is_space c.
Proof. destruct c as [[] [] [] [] [] [] [] []]; reflexivity. Qed.

Lemma all_space_lower (s : string) : all_space (PyStr.lower s) = all_space s.
Proof.
  induction s as [|c s IH]; simpl; [reflexivity|]. by rewrite is_space_lower_char, IH.
Qed.

Lemma truthy_false_iff (s : string) : PyStr.truthy s = false <-> s = "".
Proof. destruct s; split; (reflexivity || discriminate). Qed.

Lemma pantry_token_empty_iff (i : string) :
  pantry_token i = "" <-> PyStr.truthy (PyStr.strip i) = false.
Proof.
  rewrite truthy_false_iff, strip_empty_iff. unfold pantry_token.
  rewrite <- all_space_lower, <- strip_empty_iff.
  destruct (PyStr.strip (PyStr.lower i)); simpl; split; congruence.
Qed.

Lemma join_head_nonempty (sep t : string) (ts : list string) :
  t <> "" -> PyStr.join sep (t :: ts) <> "".
Proof.
  intros Ht. destruct t as [|c t]; [congruence|].
  destruct ts; simpl; discriminate.
Qed.

(** The query is empty exactly when every pantry item is empty or blank. *)
Lemma pantry_query_empty_iff (pantry_items : list string) :
  pantry_query pantry_items = "" <-> blank_pantry pantry_items.
Proof.
  split; [|apply pantry_query_blank].
  unfold pantry_query, blank_pantry.
  induction pantry_items as [|i l IH]; [constructor|].
  destruct (PyStr.truthy (PyStr.strip i)) eqn:Hi.
  - rewrite filter_cons_True by exact Hi. intros E. exfalso.
    revert E. apply join_head_nonempty.
    intros Ht. apply pantry_token_empty_iff in Ht. congruence.
  - rewrite filter_cons_False by (rewrite Hi; discriminate).
    intros E. constructor; [exact Hi | exact (IH E)].
Qed.

Section RecommenderProperties.
Context `{Scoring}.

Lemma recommend_untrained (fs : artifacts) (pantry_items : list string) (top_k : Z)
    (diet : option string) :
  exists_ (vect_file fs) && exists_ (matrix_file fs) && exists_ (recipes_map fs) = false ->
  recommend_from_pantry fs pantry_items top_k diet = inl ModelNotTrained.
Proof.
  intros He. unfold recommend_from_pantry.
  destruct (exists_ (vect_file fs)), (exists_ (matrix_file fs)), (exists_ (recipes_map fs));
    simpl in *; try reflexivity; discriminate.
Qed.

Lemma recommend_trained (fs : artifacts) (vec : Vectorizer) (mat : Matrix)
    (rec_map : recipes_index) (pantry_items : list string) (top_k : Z) (diet : option string) :
  vect_file fs = Holds vec -> matrix_file fs = Holds mat -> recipes_map fs = Holds rec_map ->
  recommend_from_pantry fs pantry_items top_k diet =
    let q := pantry_query pantry_items in
    if negb (PyStr.truthy q) then inr (zero_scored (head top_k (rows rec_map)))
    else
      let sims := linear_kernel vec mat q in
      if negb (length sims =? length (rows rec_map))%nat then inl ValueError
      else
        let scored := zip (rows rec_map) sims in
        let kept :=
          if PyStr.truthy (PyStr.or_else diet "") && has_diet_tag rec_map
          then filter (fun r => diet_matches (PyStr.or_else diet "") (fst r) = true) scored
          else scored in
        inr (head top_k (sort_values kept)).
Proof.
  intros Hv Hm Hr. unfold recommend_from_pantry. rewrite Hv, Hm, Hr. reflexivity.
Qed.

(** C4: the call fails with the "model not trained" error exactly when
    one of the three artifact files is absent; with only some of them
    present it fails in that way, and with all three present it does
    not.  The error is a value of its own, not an empty list of
    recommendations. *)
Theorem model_not_trained_iff (fs : artifacts) (pantry_items : list string) (top_k : Z)
    (diet : option string) :
  (recommend_from_pantry fs pantry_items top_k diet = inl ModelNotTrained
   <-> vect_file fs = Absent \/ matrix_file fs = Absent \/ recipes_map fs = Absent)
  /\ inl ModelNotTrained <> (inr [] : exn + list scored_row).
Proof.
  split; [|discriminate].
  split.
  - intros Hr.
    destruct (vect_file fs) as [| |vec] eqn:Hv; [auto| |];
      (destruct (matrix_file fs) as [| |mat] eqn:Hm; [auto| |]);
      (destruct (recipes_map fs) as [| |rec_map] eqn:Hc; [auto| |]);
      exfalso; unfold recommend_from_pantry in Hr; rewrite Hv, Hm, Hc in Hr;
      simpl in Hr; try discriminate.
    destruct (negb (PyStr.truthy (pantry_query pantry_items))); [discriminate|].
    destruct (negb (length _ =? length _)%nat); discriminate.
  - intros Habs. apply recommend_untrained.
    destruct Habs as [-> | [-> | ->]]; simpl.
    + reflexivity.
    + destruct (exists_ (vect_file fs)); reflexivity.
    + destruct (exists_ (vect_file fs)), (exists_ (matrix_file fs)); reflexivity.
Qed.

(** C5: on a trained index, a pantry whose items are all empty or blank
    (the empty pantry among them) gets, for any diet and any count
    [top_k >= 0], the first [top_k] rows of the catalogue (all of them
    when it has fewer) in stored order, each with score zero, and no
    error. *)
Theorem empty_pantry_returns_head (fs : artifacts) (vec : Vectorizer) (mat : Matrix)
    (rec_map : recipes_index) (pantry_items : list string) (top_k : Z) (diet : option string) :
  vect_file fs = Holds vec -> matrix_file fs = Holds mat -> recipes_map fs = Holds rec_map ->
  blank_pantry pantry_items ->
  (0 <= top_k)%Z ->
  recommend_from_pantry fs pantry_items top_k diet
  = inr (zero_scored (take (Z.to_nat top_k) (rows rec_map)))
  /\ length (zero_scored (take (Z.to_nat top_k) (rows rec_map)))
     = Nat.min (Z.to_nat top_k) (length (rows rec_map)).
Proof.
  intros Hv Hm Hr Hb Hk. split.
  - rewrite (recommend_trained fs vec mat rec_map) by assumption.
    cbv zeta. rewrite (pantry_query_blank _ Hb). simpl.
    by rewrite head_nonneg.
  - unfold zero_scored. rewrite length_map, length_take. reflexivity.
Qed.

(** C9: on a trained index the empty query does not look at the diet:
    for every diet the result is the head of the catalogue with zero
    scores, whatever the diet tags of those rows; a non-empty query with
    a diet, on a catalogue that has the diet column, returns only rows
    whose tag is that diet up to case. *)
Theorem empty_query_ignores_diet (fs : artifacts) (vec : Vectorizer) (mat : Matrix)
    (rec_map : recipes_index) (pantry_items : list string) (top_k : Z) :
  vect_file fs = Holds vec -> matrix_file fs = Holds mat -> recipes_map fs = Holds rec_map ->
  (blank_pantry pantry_items ->
   forall diet, recommend_from_pantry fs pantry_items top_k diet
                = inr (zero_scored (head top_k (rows rec_map))))
  /\ (pantry_query pantry_items <> "" ->
      has_diet_tag rec_map = true ->
      forall d out, d <> "" ->
        recommend_from_pantry fs pantry_items top_k (Some d) = inr out ->
        forall row, row ∈ out -> diet_matches d (fst row) = true).
Proof.
  intros Hv Hm Hr. split.
  - intros Hb diet. rewrite (recommend_trained fs vec mat rec_map) by assumption.
    cbv zeta. rewrite (pantry_query_blank _ Hb). reflexivity.
  - intros Hq Htag d out Hd Hout row Hrow.
    rewrite (recommend_trained fs vec mat rec_map) in Hout by assumption.
    cbv zeta in Hout.
    destruct (pantry_query pantry_items) as [|c q] eqn:Eq; [congruence|].
    simpl in Hout.
    destruct (negb (length _ =? length _)%nat); [discriminate|].
    rewrite Htag, andb_true_r in Hout.
    destruct d as [|c' d]; [congruence|]. simpl in Hout.
    injection Hout as <-.
    apply head_subseteq in Hrow.
    unfold sort_values in Hrow. rewrite merge_sort_Permutation in Hrow.
    apply list_elem_of_filter in Hrow as [Hmatch _]. exact Hmatch.
Qed.

End RecommenderProperties.

Lemma empty_pantry_returns_head_witness :
  @recommend_from_pantry sample_scoring sample_artifacts [" "; ""] 2 (Some "vegan")
  = inr (@zero_scored sample_scoring [row_dal; row_omelette]).
Proof.
  assert (Hb : blank_pantry [" "; ""]) by (repeat constructor).
  assert (Hk : (0 <= 2)%Z) by lia.
  destruct (@empty_pantry_returns_head sample_scoring sample_artifacts
              (tt : @Vectorizer sample_scoring) ([5; 9; 7]%Z : @Matrix sample_scoring)
              sample_catalogue [" "; ""] 2 (Some "vegan") eq_refl eq_refl eq_refl Hb Hk)
    as [Hres _].
  exact Hres.
Defined.

Lemma empty_query_ignores_diet_witness :
  @recommend_from_pantry sample_scoring sample_artifacts [] 2 (Some "vegan")
  = inr (@zero_scored sample_scoring [row_dal; row_omelette])
  /\ diet_matches "vegan" row_omelette = false
  /\ diet_matches "vegan" (fst (row_salad, 7%Z)) = true.
Proof.
  destruct (@empty_query_ignores_diet sample_scoring sample_artifacts
              (tt : @Vectorizer sample_scoring) ([5; 9; 7]%Z : @Matrix sample_scoring)
              sample_catalogue [] 2 eq_refl eq_refl eq_refl) as [Hempty _].
  destruct (@empty_query_ignores_diet sample_scoring sample_artifacts
              (tt : @Vectorizer sample_scoring) ([5; 9; 7]%Z : @Matrix sample_scoring)
              sample_catalogue ["Rice"] 2 eq_refl eq_refl eq_refl) as [_ Hfilter].
  split; [|split].
  - apply Hempty. constructor.
  - reflexivity.
  - apply (Hfilter ltac:(vm_compute; discriminate) eq_refl "vegan"
             [(row_salad, 7%Z); (row_dal, 5%Z)] ltac:(discriminate)).
    + vm_compute. reflexivity.
    + apply list_elem_of_here.
Defined.

(** * Further properties *)

(** ** Strings *)

Lemma str_app_nil_r (s : string) : s +:+ "" = s.
Proof.
  induction s as [|c s IH]; [reflexivity|].
  change (String c (s +:+ "") = String c s). by rewrite IH.
Qed.

Lemma str_app_assoc (a b c : string) : (a +:+ b) +:+ c = a +:+ (b +:+ c).
Proof.
  induction a as [|x a IH]; [reflexivity|].
  change (String x ((a +:+ b) +:+ c) = String x (a +:+ (b +:+ c))). by rewrite IH.
Qed.

Lemma rev_app_app (a b : string) : String.rev_app a b = String.rev a +:+ b.
Proof.
  unfold String.rev. revert b. induction a as [|x a IH]; intros b; [reflexivity|].
  simpl. rewrite (IH (String x b)), (IH (String x "")), str_app_assoc. reflexivity.
Qed.

Lemma rev_app_rev_app (a b c : string) :
  String.rev_app (String.rev_app a b) c = String.rev_app b (a +:+ c).
Proof.
  revert b. induction a as [|x a IH]; intros b; [reflexivity|].
  simpl. rewrite IH. reflexivity.
Qed.

Lemma str_rev_involutive (s : string) : String.rev (String.rev s) = s.
Proof. unfold String.rev. rewrite rev_app_rev_app. exact (str_app_nil_r s). Qed.

Lemma no_lead_lstrip (s : string) : no_lead (PyStr.lstrip s).
Proof.
  induction s as [|c s IH]; simpl; [exact I|].
  destruct (PyStr.is_space c) eqn:E; [exact IH|exact E].
Qed.

Lemma lstrip_no_lead (s : string) : no_lead s -> PyStr.lstrip s = s.
Proof. destruct s as [|c s]; simpl; [reflexivity|]. by intros ->. Qed.

Lemma no_lead_app (a b : string) : a <> "" -> no_lead (a +:+ b) -> no_lead a.
Proof. destruct a as [|c a]; [congruence|]. intros _ H. exact H. Qed.

Lemma no_lead_rev_lstrip (s : string) :
  no_lead (String.rev s) -> no_lead (String.rev (PyStr.lstrip s)).
Proof.
  induction s as [|c s IH]; simpl; [auto|].
  destruct (PyStr.is_space c) eqn:E; [|auto].
  intros H. apply IH. unfold String.rev in H. simpl in H. rewrite rev_app_app in H.
  destruct (String.rev s) as [|x r] eqn:Er; [exact I|].
  exact H.
Qed.

Lemma no_lead_strip (s : string) : no_lead (PyStr.strip s).
Proof.
  unfold PyStr.strip, PyStr.rstrip.
  apply no_lead_rev_lstrip. rewrite str_rev_involutive. apply no_lead_lstrip.
Qed.

Lemma no_lead_rev_strip (s : string) : no_lead (String.rev (PyStr.strip s)).
Proof.
  unfold PyStr.strip, PyStr.rstrip. rewrite str_rev_involutive. apply no_lead_lstrip.
Qed.

(** Trimming twice is trimming once. *)
Lemma strip_idempotent (s : string) : PyStr.strip (PyStr.strip s) = PyStr.strip s.
Proof.
  unfold PyStr.strip at 1. unfold PyStr.rstrip.
  rewrite (lstrip_no_lead _ (no_lead_strip s)).
  rewrite (lstrip_no_lead _ (no_lead_rev_strip s)).
  apply str_rev_involutive.
Qed.

Lemma contains_char_rev_app (c : ascii) (a b : string) :
  PyStr.contains_char c (String.rev_app a b)
  = PyStr.contains_char c a || PyStr.contains_char c b.
Proof.
  revert b. induction a as [|x a IH]; intros b; simpl; [reflexivity|].
  rewrite IH. simpl. destruct (decide (c = x)); simpl.
  - by rewrite orb_true_r.
  - reflexivity.
Qed.

Lemma free_of_lstrip (c : ascii) (s : string) : free_of c s -> free_of c (PyStr.lstrip s).
Proof.
  unfold free_of. induction s as [|x s IH]; simpl; [auto|].
  destruct (decide (c = x)); [discriminate|].
  destruct (PyStr.is_space x); simpl; [exact IH|].
  destruct (decide (c = x)); [congruence|auto].
Qed.

Lemma free_of_rev (c : ascii) (s : string) : free_of c s -> free_of c (String.rev s).
Proof.
  unfold free_of, String.rev. rewrite contains_char_rev_app. intros ->. reflexivity.
Qed.

Lemma free_of_strip (c : ascii) (s : string) : free_of c s -> free_of c (PyStr.strip s).
Proof.
  intros H. unfold PyStr.strip, PyStr.rstrip.
  apply free_of_rev, free_of_lstrip, free_of_rev, free_of_lstrip, H.
Qed.

Lemma str_split_free (sep : ascii) (s : string) :
  Forall (free_of sep) (str_split sep s).
Proof.
  induction s as [|c s IH]; simpl.
  - repeat constructor.
  - destruct (decide (c = sep)) as [->|Hne].
    + constructor; [reflexivity|exact IH].
    + destruct (str_split sep s) as [|p parts].
      * constructor; [|constructor]. unfold free_of. simpl.
        destruct (decide (sep = c)); [congruence|reflexivity].
      * inversion IH as [|? ? Hp Hparts]; subst. constructor; [|exact Hparts].
        unfold free_of in *. simpl. destruct (decide (sep = c)); [congruence|exact Hp].
Qed.

Lemma truthy_true_iff (s : string) : PyStr.truthy s = true <-> s <> "".
Proof. destruct s; split; (congruence || reflexivity || discriminate). Qed.

Lemma strip_blank_iff (s : string) :
  PyStr.truthy (PyStr.strip s) = false <-> all_space s = true.
Proof. rewrite truthy_false_iff. apply strip_empty_iff. Qed.

(** ** The key pool at start-up *)

Example keys_of_env_ex1 :
  KEYS_of_env (Some " k1 , ,k2,") = ["k1"; "k2"].
Proof. vm_compute. reflexivity. Qed.

Example keys_of_env_ex2 : KEYS_of_env (Some ",") = [].
Proof. vm_compute. reflexivity. Qed.

Example keys_of_env_ex3 : KEYS_of_env (Some "  ") = DEFAULT_KEYS.
Proof. vm_compute. reflexivity. Qed.

(** X1: Whatever [SPOON_KEYS] holds, the pool built from it has no blank key,
    every key is trimmed (so the key sent with a request is the pool entry
    itself) and free of commas; an unset or blank variable gives the two
    built-in keys. *)
Theorem keys_of_env_clean (spoon_keys : option string) :
  no_blank_key (KEYS_of_env spoon_keys)
  /\ Forall (fun k => PyStr.strip k = k) (KEYS_of_env spoon_keys)
  /\ Forall (free_of ",") (KEYS_of_env spoon_keys)
  /\ (forall i k, KEYS_of_env spoon_keys !! i = Some k ->
        slot_key (KEYS_of_env spoon_keys) i = k /\ k <> "")
  /\ (all_space (PyStr.or_else spoon_keys "") = true -> KEYS_of_env spoon_keys = DEFAULT_KEYS).
Proof.
  assert (Hmain : no_blank_key (KEYS_of_env spoon_keys)
                  /\ Forall (fun k => PyStr.strip k = k) (KEYS_of_env spoon_keys)
                  /\ Forall (free_of ",") (KEYS_of_env spoon_keys)).
  { unfold KEYS_of_env, no_blank_key.
    destruct (PyStr.truthy (PyStr.strip (PyStr.or_else spoon_keys ""))).
    - set (parts := str_split "," (PyStr.strip (PyStr.or_else spoon_keys ""))).
      pose proof (str_split_free "," (PyStr.strip (PyStr.or_else spoon_keys ""))) as Hfree.
      fold parts in Hfree. rewrite Forall_forall in Hfree.
      repeat split; apply Forall_forall; intros k Hk;
        apply list_elem_of_fmap in Hk as (p & -> & Hp);
        apply list_elem_of_filter in Hp as [Hp Hin].
      + by rewrite strip_idempotent.
      + apply strip_idempotent.
      + apply free_of_strip, Hfree, Hin.
    - repeat split; repeat constructor. }
  destruct Hmain as (Hnb & Htrim & Hfree).
  split; [exact Hnb|]. split; [exact Htrim|]. split; [exact Hfree|]. split.
  - intros i k Hk. unfold slot_key. rewrite Hk. simpl.
    rewrite Forall_lookup in Htrim. rewrite (Htrim i k Hk).
    split; [reflexivity|].
    unfold no_blank_key in Hnb. rewrite Forall_lookup in Hnb.
    specialize (Hnb i k Hk). rewrite (Htrim i k Hk) in Hnb.
    by apply truthy_true_iff.
  - intros Hb. unfold KEYS_of_env.
    apply strip_blank_iff in Hb. rewrite Hb. reflexivity.
Qed.

(** ** Requests of the key-rotating call *)

Lemma call_loop_requests (KEYS : list string) (net : network) (endpoint : string) (n : nat) :
  forall (rounds : nat) (params : gmap string string) (w : world),
  exists reqs : list request,
    sent (snd (call_loop KEYS net endpoint n rounds params w)) = (sent w ++ reqs)%list
    /\ length reqs <= rounds
    /\ Forall (fun rq => exists k0, k0 ∈ KEYS /\ PyStr.strip k0 <> ""
                          /\ rq = request_with_key endpoint params (PyStr.strip k0)) reqs.
Proof.
  induction rounds as [|rounds IH]; intros params w; simpl.
  - exists []. split; [by rewrite app_nil_r|]. split; [simpl; lia|constructor].
  - unfold current_key.
    destruct KEYS as [|key0 KEYS'] eqn:EK.
    + (* empty pool: the key is blank *)
      simpl. destruct (IH params (rotate n w)) as (reqs & Hs & Hl & Hf).
      exists reqs. split; [exact Hs|]. split; [lia|exact Hf].
    + rewrite <- EK in *.
      destruct (KEYS !! key_index w) as [k0|] eqn:Hk0.
      * rewrite or_else_Some_empty.
        destruct (PyStr.truthy (PyStr.strip k0)) eqn:Hkey.
        -- set (req := {| endpoint := endpoint;
                          params := <["apiKey":=PyStr.strip k0]> params |}).
           assert (Hreq : exists k1, k1 ∈ KEYS /\ PyStr.strip k1 <> ""
                                     /\ req = request_with_key endpoint params (PyStr.strip k1)).
           { exists k0. split; [eapply list_elem_of_lookup_2; exact Hk0|].
             split; [by apply truthy_true_iff|reflexivity]. }
           assert (Hcont :
             exists reqs,
               sent (snd (call_loop KEYS net endpoint n rounds
                            (<["apiKey":=PyStr.strip k0]> params)
                            (rotate n (log_request req w)))) = (sent w ++ reqs)%list
               /\ length reqs <= S rounds
               /\ Forall (fun rq => exists k1, k1 ∈ KEYS /\ PyStr.strip k1 <> ""
                            /\ rq = request_with_key endpoint params (PyStr.strip k1)) reqs).
           { destruct (IH (<["apiKey":=PyStr.strip k0]> params) (rotate n (log_request req w)))
               as (reqs & Hs & Hl & Hf).
             exists (req :: reqs).
             split; [rewrite Hs; simpl; by rewrite <- app_assoc|].
             split; [simpl; lia|].
             constructor; [exact Hreq|].
             eapply Forall_impl; [exact Hf|].
             intros rq (k1 & Hin & Hne & ->). exists k1.
             rewrite request_with_key_insert. auto. }
           destruct (net (length (sent w)) req) as [r|]; [|exact Hcont].
           destruct (rotate_signal (status_code r)); [exact Hcont|].
           exists [req]. split; [reflexivity|]. split; [simpl; lia|].
           constructor; [exact Hreq|constructor].
        -- destruct (IH params (rotate n w)) as (reqs & Hs & Hl & Hf).
           exists reqs. split; [exact Hs|]. split; [lia|exact Hf].
      * exists []. simpl. split; [by rewrite app_nil_r|]. split; [simpl; lia|constructor].
Qed.

(** X2: Whatever the pool, the index and the provider, one call sends at most
    [max(1, len(KEYS))] requests, after those sent before; each goes to
    the endpoint asked for, carries the caller's parameters with only
    [apiKey] added, and its [apiKey] is a key of the pool, trimmed and
    not empty. *)
Theorem call_spoonacular_requests (KEYS : list string) (net : network) (endpoint : string)
    (params : gmap string string) (w : world) :
  exists reqs : list request,
    sent (snd (call_spoonacular KEYS net endpoint params w)) = (sent w ++ reqs)%list
    /\ length reqs <= Nat.max 1 (length KEYS)
    /\ Forall (fun rq => exists k0, k0 ∈ KEYS /\ PyStr.strip k0 <> ""
                          /\ rq = request_with_key endpoint params (PyStr.strip k0)) reqs.
Proof. unfold call_spoonacular. apply call_loop_requests. Qed.

(** ** The pool index *)

Lemma call_loop_index (KEYS : list string) (net : network) (endpoint : string) (n : nat) :
  n <> 0 ->
  forall (rounds : nat) (params : gmap string string) (w : world),
  key_index w < n ->
  key_index (snd (call_loop KEYS net endpoint n rounds params w)) < n.
Proof.
  intros Hn. induction rounds as [|rounds IH]; intros params w Hi; simpl; [exact Hi|].
  assert (Hrot : forall w0, key_index (rotate n w0) < n).
  { intros w0. unfold rotate. simpl. by apply Nat.mod_upper_bound. }
  destruct (current_key KEYS w) as [e|k]; [exact Hi|].
  destruct (PyStr.truthy k); [|apply IH, Hrot].
  destruct (net _ _) as [r|]; [|apply IH, Hrot].
  destruct (rotate_signal (status_code r)); [apply IH, Hrot|exact Hi].
Qed.

Lemma strategy_index (KEYS : list string) (net : network) (endpoint : string)
    (params : gmap string string) (normalise : raw_recipe -> summary) (w : world) :
  key_index w < Nat.max 1 (length KEYS) ->
  key_index (snd (strategy KEYS net endpoint params normalise w)) < Nat.max 1 (length KEYS).
Proof.
  intros Hi. unfold strategy, call_spoonacular.
  pose proof (call_loop_index KEYS net endpoint (Nat.max 1 (length KEYS)) ltac:(lia)
                (Nat.max 1 (length KEYS)) params w Hi) as H.
  destruct (call_loop _ _ _ _ _ _ _) as [[e|[r|]] w1]; simpl in *; try exact H.
  destruct (status_code r =? 200)%Z; [|exact H].
  destruct (json r) as [results|]; [|exact H].
  destruct (map normalise results); exact H.
Qed.

Lemma strategy_requests (KEYS : list string) (net : network) (endpoint : string)
    (params : gmap string string) (normalise : raw_recipe -> summary) (w : world) :
  exists reqs : list request,
    sent (snd (strategy KEYS net endpoint params normalise w)) = (sent w ++ reqs)%list
    /\ length reqs <= Nat.max 1 (length KEYS)
    /\ Forall (fun rq => exists k0, k0 ∈ KEYS /\ PyStr.strip k0 <> ""
                          /\ rq = request_with_key endpoint params (PyStr.strip k0)) reqs.
Proof.
  unfold strategy, call_spoonacular.
  pose proof (call_loop_requests KEYS net endpoint (Nat.max 1 (length KEYS))
                (Nat.max 1 (length KEYS)) params w) as H.
  destruct (call_loop _ _ _ _ _ _ _) as [[e|[r|]] w1]; simpl in *; try exact H.
  destruct (status_code r =? 200)%Z; [|exact H].
  destruct (json r) as [results|]; [|exact H].
  destruct (map normalise results); exact H.
Qed.

Lemma save_and_return_frame (blob : gmap string cache_entry) (key : string)
    (l : list summary) (w : world) :
  key_index (snd (_save_and_return blob key l w)) = key_index w
  /\ sent (snd (_save_and_return blob key l w)) = sent w
  /\ offline_mode (snd (_save_and_return blob key l w)) = offline_mode w
  /\ disk_writable (snd (_save_and_return blob key l w)) = disk_writable w
  /\ demo_file (snd (_save_and_return blob key l w)) = demo_file w
  /\ now (snd (_save_and_return blob key l w)) = now w.
Proof.
  unfold _save_and_return. simpl.
  destruct (disk_writable w) eqn:E; simpl; repeat split; exact E.
Qed.

(** X3: A list request keeps the pool index inside the pool (inside [0, 1)
    for an empty pool), however its two searches end. *)
Theorem list_request_keeps_index (KEYS : list string) (net : network)
    (include_ingredients : list string) (diet : option string) (number : Z) (w : world) :
  key_index w < Nat.max 1 (length KEYS) ->
  key_index (snd (spoonacular_recipes KEYS net include_ingredients diet number w))
  < Nat.max 1 (length KEYS).
Proof.
  intros Hi. unfold spoonacular_recipes.
  destruct (offline_mode w).
  { destruct (fresh_hit _ _); exact Hi. }
  destruct (fresh_hit _ _); [exact Hi|].
  unfold primary_search, secondary_search.
  match goal with
  | |- context [strategy KEYS net "/recipes/complexSearch" ?p ?f w] =>
    pose proof (strategy_index KEYS net "/recipes/complexSearch" p f w Hi) as H1;
    destruct (strategy KEYS net "/recipes/complexSearch" p f w) as [[l1| |] w1]
  end; simpl in H1.
  - destruct (save_and_return_frame
                (read_list_cache w)
                (_cache_key
                   match clean_ingredients include_ingredients with
                   | [] => ["egg"; "milk"; "bread"]
                   | x :: l => x :: l
                   end (Some (PyStr.or_else (diet_norm diet) "none")) number) l1 w1)
      as (Hk & _). rewrite Hk. exact H1.
  - exact H1.
  - match goal with
    | |- context [strategy KEYS net "/recipes/findByIngredients" ?p ?f w1] =>
      pose proof (strategy_index KEYS net "/recipes/findByIngredients" p f w1 H1) as H2;
      destruct (strategy KEYS net "/recipes/findByIngredients" p f w1) as [[l2| |] w2]
    end; simpl in H2.
    + match goal with
      | |- context [_save_and_return ?b ?k l2 w2] =>
        destruct (save_and_return_frame b k l2 w2) as (Hk & _); rewrite Hk; exact H2
      end.
    + exact H2.
    + exact H2.
Qed.

Lemma list_request_keeps_index_witness :
  key_index (snd (spoonacular_recipes sample_pool net_third_succeeds ["egg"] None 10
                                      stale_world)) < 3.
Proof.
  apply (list_request_keeps_index sample_pool net_third_succeeds ["egg"] None 10 stale_world).
  simpl. lia.
Defined.

(** ** An index outside the pool *)

Lemma call_spoonacular_index_error (KEYS : list string) (net : network) (endpoint : string)
    (params : gmap string string) (w : world) :
  KEYS <> [] -> length KEYS <= key_index w ->
  call_spoonacular KEYS net endpoint params w = (inl IndexError, w).
Proof.
  intros Hne Hge. unfold call_spoonacular.
  destruct KEYS as [|k KEYS']; [congruence|].
  assert (Hm : Nat.max 1 (length (k :: KEYS')) = S (length KEYS')) by (simpl; lia).
  rewrite Hm. simpl call_loop. unfold current_key.
  rewrite (lookup_ge_None_2 (k :: KEYS') (key_index w) Hge). reflexivity.
Qed.

(** X4: With the pool index outside a non-empty pool, the key-rotating call
    raises [IndexError] before any request; a live list request swallows
    it in both searches and serves the entry under its key, or the offline
    catalogue when there is none, leaving the state as it was. *)
Theorem list_request_swallows_index_error (KEYS : list string) (net : network)
    (include_ingredients : list string) (diet : option string) (number : Z) (w : world) :
  KEYS <> [] -> length KEYS <= key_index w -> offline_mode w = false ->
  (forall endpoint params,
      call_spoonacular KEYS net endpoint params w = (inl IndexError, w))
  /\ spoonacular_recipes KEYS net include_ingredients diet number w
     = (stale_or_demo (read_list_cache w !! request_key include_ingredients diet number) w, w).
Proof.
  intros Hne Hge Hoff.
  split; [intros; by apply call_spoonacular_index_error|].
  unfold spoonacular_recipes. rewrite Hoff.
  fold (effective_ingredients include_ingredients).
  fold (request_key include_ingredients diet number).
  destruct (read_list_cache w !! request_key include_ingredients diet number) as [e|] eqn:He;
    simpl.
  - destruct (_is_fresh _ _ _); [reflexivity|].
    unfold primary_search, secondary_search, strategy.
    rewrite !call_spoonacular_index_error by assumption. reflexivity.
  - unfold primary_search, secondary_search, strategy.
    rewrite !call_spoonacular_index_error by assumption. reflexivity.
Qed.

Lemma list_request_swallows_index_error_witness :
  spoonacular_recipes sample_pool net_one_result ["egg"] None 10 lost_index_world
  = (entry_data sample_entry, lost_index_world).
Proof.
  destruct (list_request_swallows_index_error sample_pool net_one_result ["egg"] None 10
              lost_index_world) as [_ H].
  - discriminate.
  - simpl. lia.
  - reflexivity.
  - rewrite H. vm_compute. reflexivity.
Defined.

(** ** What a list request does to the cache *)

Lemma fix_image_url_ok (val : option string) (rid : option Z) (ty : option string) :
  image_ok (_fix_image_url val rid ty).
Proof.
  rewrite fix_image_url_unfold. cbv zeta.
  destruct (is_absolute (PyStr.strip (default "" val))) eqn:Ha; [exact Ha|].
  destruct (is_image_file_name _); [reflexivity|].
  destruct (_build_img_from_id rid ty) as [b|] eqn:Eb; [|exact I].
  apply build_img_from_id_truthy in Eb as [_ Hb]. exact Hb.
Qed.

Lemma strategy_found (KEYS : list string) (net : network) (endpoint : string)
    (params : gmap string string) (normalise : raw_recipe -> summary) (w w1 : world)
    (l : list summary) :
  strategy KEYS net endpoint params normalise w = (Found l, w1) ->
  l <> [] /\ exists results, l = map normalise results.
Proof.
  unfold strategy.
  destruct (call_spoonacular _ _ _ _ _) as [[e|[r|]] w0]; try discriminate.
  destruct (status_code r =? 200)%Z; [|discriminate].
  destruct (json r) as [results|]; [|discriminate].
  destruct (map normalise results) as [|s summaries] eqn:Em; [discriminate|].
  intros [= <- <-]. split; [discriminate|]. exists results. by rewrite Em.
Qed.

Lemma load_demo_nonempty (w : world) : _load_demo_recipes w <> [].
Proof.
  unfold _load_demo_recipes. destruct (demo_file w) as [[|x demo]|]; discriminate.
Qed.

Lemma fresh_hit_Some (entry : option cache_entry) (w : world) (data : list summary) :
  fresh_hit entry w = Some data ->
  exists e, entry = Some e /\ data = entry_data e
            /\ _is_fresh (now w) (entry_ts e) CACHE_TTL_DAYS = true.
Proof.
  unfold fresh_hit. destruct entry as [e|]; [|discriminate].
  destruct (_is_fresh _ _ _) eqn:Ef; [|discriminate].
  intros [= <-]. eauto.
Qed.

(** The two ways a live request can end: served from what is on disk, the
    cache untouched; or served by the provider, the list saved under the
    key of the request. *)
Lemma spoonacular_recipes_live_cases (KEYS : list string) (net : network)
    (include_ingredients : list string) (diet : option string) (number : Z) (w : world) :
  offline_mode w = false ->
  let key := request_key include_ingredients diet number in
  let entry := read_list_cache w !! key in
  let out := spoonacular_recipes KEYS net include_ingredients diet number w in
  same_settings w (snd out)
  /\ ((fst out = stale_or_demo entry w /\ list_cache (snd out) = list_cache w
       /\ (fresh_hit entry w = None ->
           network_failed KEYS net include_ingredients diet number w))
      \/ (fresh_hit entry w = None
          /\ ~ network_failed KEYS net include_ingredients diet number w
          /\ fst out <> []
          /\ (exists results, fst out = map summary_of_complex results
                              \/ fst out = map summary_of_find results)
          /\ list_cache (snd out)
             = if disk_writable w
               then Some (<[key := {| entry_ts := Some (now w); entry_data := fst out |}]>
                            (read_list_cache w))
               else list_cache w)).
Proof.
  intros Hoff key entry out.
  assert (Hss : forall w1, same_files w w1 -> same_settings w w1).
  { intros w1 (H1 & H2 & H3 & H4 & H5). repeat split; assumption. }
  assert (Hsave : forall l w1, same_files w w1 ->
            same_settings w (snd (_save_and_return (read_list_cache w) key l w1))
            /\ list_cache (snd (_save_and_return (read_list_cache w) key l w1))
               = if disk_writable w
                 then Some (<[key := {| entry_ts := Some (now w); entry_data := l |}]>
                              (read_list_cache w))
                 else list_cache w).
  { intros l w1 (H1 & H2 & H3 & H4 & H5). unfold _save_and_return. simpl.
    rewrite H3, H5. destruct (disk_writable w) eqn:Ed; simpl.
    - split; [unfold same_settings; simpl; rewrite Ed; auto|reflexivity].
    - split; [unfold same_settings; rewrite Ed; auto|exact H2]. }
  unfold out, spoonacular_recipes. rewrite Hoff.
  fold (effective_ingredients include_ingredients).
  fold (request_key include_ingredients diet number). fold key. fold entry.
  destruct (fresh_hit entry w) as [data|] eqn:Hhit.
  { apply fresh_hit_Some in Hhit as (e & He & -> & _). simpl.
    split; [apply Hss, same_files_refl|]. left. rewrite He. simpl.
    split; [reflexivity|]. split; [reflexivity|discriminate]. }
  unfold network_failed.
  pose proof (strategy_frame KEYS net "/recipes/complexSearch"
                (complex_search_params (effective_ingredients include_ingredients)
                   (diet_norm diet) number) summary_of_complex w) as Hf1.
  fold (primary_search KEYS net (effective_ingredients include_ingredients)
          (diet_norm diet) number w) in Hf1.
  destruct (primary_search _ _ _ _ _ _) as [[l1| |] w1] eqn:H1; simpl in Hf1.
  - destruct (Hsave l1 w1 Hf1) as [Hs Hc].
    apply strategy_found in H1 as [Hne [results Hres]].
    split; [exact Hs|]. right.
    replace (fst (_save_and_return (read_list_cache w) key l1 w1)) with l1 by reflexivity.
    split; [reflexivity|]. split; [tauto|]. split; [exact Hne|].
    split; [exists results; by left|exact Hc].
  - simpl. split; [apply Hss, Hf1|]. left.
    split; [apply stale_or_demo_same_files, Hf1|]. split; [apply Hf1|auto].
  - pose proof (strategy_frame KEYS net "/recipes/findByIngredients"
                  (find_by_ingredients_params (effective_ingredients include_ingredients) number)
                  summary_of_find w1) as Hf2.
    fold (secondary_search KEYS net (effective_ingredients include_ingredients) number w1) in Hf2.
    pose proof (same_files_trans _ _ _ Hf1 Hf2) as Hf.
    destruct (secondary_search _ _ _ _ _) as [[l2| |] w2] eqn:H2; simpl in Hf2, Hf.
    + destruct (Hsave l2 w2 Hf) as [Hs Hc].
      apply strategy_found in H2 as [Hne [results Hres]].
      split; [exact Hs|]. right.
      replace (fst (_save_and_return (read_list_cache w) key l2 w2)) with l2 by reflexivity.
      split; [reflexivity|]. split; [tauto|]. split; [exact Hne|].
      split; [exists results; by right|exact Hc].
    + simpl. split; [apply Hss, Hf|]. left.
      split; [apply stale_or_demo_same_files, Hf|]. split; [apply Hf|auto].
    + simpl. split; [apply Hss, Hf|]. left.
      split; [apply stale_or_demo_same_files, Hf|]. split; [apply Hf|auto].
Qed.

Lemma offline_request_unfold (KEYS : list string) (net : network)
    (include_ingredients : list string) (diet : option string) (number : Z) (w : world) :
  offline_mode w = true ->
  spoonacular_recipes KEYS net include_ingredients diet number w
  = (match fresh_hit (read_list_cache w !! offline_key include_ingredients diet number) w with
     | Some data => data
     | None => _load_demo_recipes w
     end, w).
Proof.
  intros Hoff. unfold spoonacular_recipes. rewrite Hoff.
  fold (offline_key include_ingredients diet number).
  destruct (fresh_hit _ _); reflexivity.
Qed.


(** X6: As long as every cached entry has a non-empty payload, which the code
    itself ensures for the entries it writes, a list request returns a
    non-empty list in every mode and whatever the provider does, and
    leaves a cache with the same property. *)
Theorem list_request_never_empty (KEYS : list string) (net : network)
    (include_ingredients : list string) (diet : option string) (number : Z) (w : world) :
  cache_payloads_nonempty w ->
  fst (spoonacular_recipes KEYS net include_ingredients diet number w) <> []
  /\ cache_payloads_nonempty (snd (spoonacular_recipes KEYS net include_ingredients diet number w)).
Proof.
  intros Hinv.
  assert (Hlocal : forall k, stale_or_demo (read_list_cache w !! k) w <> []).
  { intros k. destruct (read_list_cache w !! k) as [e|] eqn:He; simpl.
    - exact (Hinv k e He).
    - apply load_demo_nonempty. }
  destruct (offline_mode w) eqn:Hoff.
  - rewrite (offline_request_unfold _ _ _ _ _ _ Hoff). simpl. split; [|exact Hinv].
    destruct (fresh_hit _ w) as [data|] eqn:Hhit; [|apply load_demo_nonempty].
    apply fresh_hit_Some in Hhit as (e & He & -> & _). exact (Hinv _ e He).
  - destruct (spoonacular_recipes_live_cases KEYS net include_ingredients diet number w Hoff)
      as [_ [(Hr & Hc & _) | (_ & _ & Hne & _ & Hc)]].
    + split; [rewrite Hr; apply Hlocal|].
      unfold cache_payloads_nonempty, read_list_cache. rewrite Hc. exact Hinv.
    + split; [exact Hne|].
      unfold cache_payloads_nonempty.
      destruct (disk_writable w).
      * intros k e. unfold read_list_cache at 1. rewrite Hc.
        destruct (decide (request_key include_ingredients diet number = k)) as [<-|Hk].
        -- rewrite lookup_insert_eq. intros [= <-]. exact Hne.
        -- rewrite lookup_insert_ne by exact Hk. apply Hinv.
      * intros k e. unfold read_list_cache at 1. rewrite Hc. apply Hinv.
Qed.

Lemma list_request_never_empty_witness :
  fst (spoonacular_recipes sample_pool net_down ["egg"] None 10 stale_world) <> [].
Proof.
  apply (list_request_never_empty sample_pool net_down ["egg"] None 10 stale_world).
  intros k e. unfold stale_world, read_list_cache. simpl.
  destruct (decide ("egg|none|10" = k)) as [<-|Hk].
  - rewrite lookup_insert_eq. intros [= <-]. discriminate.
  - rewrite lookup_insert_ne by exact Hk. rewrite lookup_empty. discriminate.
Defined.

(** X7: Once a live request has been served by the provider and the disk
    takes the write, the same request asked again at that time is served
    from the cache: it returns the same list, sends nothing and changes
    nothing, whatever the pool and the provider are by then. *)
Theorem list_request_cached_after_success (KEYS : list string) (net : network)
    (include_ingredients : list string) (diet : option string) (number : Z) (w : world) :
  offline_mode w = false ->
  disk_writable w = true ->
  ~ network_failed KEYS net include_ingredients diet number w ->
  forall (KEYS' : list string) (net' : network),
    spoonacular_recipes KEYS' net' include_ingredients diet number
      (snd (spoonacular_recipes KEYS net include_ingredients diet number w))
    = spoonacular_recipes KEYS net include_ingredients diet number w.
Proof.
  intros Hoff Hdisk Hnet KEYS' net'.
  destruct (spoonacular_recipes_live_cases KEYS net include_ingredients diet number w Hoff)
    as [(Ho & _ & _ & Hnow) Hcases].
  set (out := spoonacular_recipes KEYS net include_ingredients diet number w) in *.
  rewrite Hoff in Ho.
  assert (Hhit : fresh_hit (read_list_cache (snd out)
                              !! request_key include_ingredients diet number) (snd out)
                 = Some (fst out)).
  { destruct Hcases as [(Hr & Hc & Hf) | (_ & _ & _ & _ & Hc)].
    - destruct (fresh_hit (read_list_cache w !! request_key include_ingredients diet number) w)
        as [data|] eqn:Hh; [|tauto].
      pose proof Hh as Hh'.
      apply fresh_hit_Some in Hh' as (e & He & -> & _).
      rewrite Hr, He. simpl.
      unfold read_list_cache at 1. rewrite Hc. fold (read_list_cache w).
      rewrite He. unfold fresh_hit in *. rewrite He in Hh. rewrite Hnow. exact Hh.
    - rewrite Hdisk in Hc. unfold read_list_cache at 1. rewrite Hc.
      rewrite lookup_insert_eq. unfold fresh_hit. simpl. rewrite Hnow.
      assert (Hf : _is_fresh (now w) (Some (now w)) CACHE_TTL_DAYS = true).
      { apply is_fresh_iff. unfold timedelta, CACHE_TTL_DAYS, MICROS_PER_DAY. lia. }
      unfold _is_fresh in Hf. rewrite Hf. reflexivity. }
  unfold spoonacular_recipes at 1. rewrite Ho.
  fold (effective_ingredients include_ingredients).
  fold (request_key include_ingredients diet number).
  rewrite Hhit. destruct out; reflexivity.
Qed.

Lemma list_request_cached_after_success_witness :
  spoonacular_recipes [] net_down ["egg"] None 10
    (snd (spoonacular_recipes sample_pool net_one_result ["egg"] None 10 sample_world))
  = spoonacular_recipes sample_pool net_one_result ["egg"] None 10 sample_world.
Proof.
  apply (list_request_cached_after_success sample_pool net_one_result ["egg"] None 10
           sample_world).
  - reflexivity.
  - reflexivity.
  - vm_compute. intros H. exact H.
Defined.

Example list_request_from_provider :
  fst (spoonacular_recipes sample_pool net_one_result ["egg"] None 10 sample_world)
  = [summary_of_complex raw_pancake]
  /\ sum_image (summary_of_complex raw_pancake)
     = Some "https://img.spoonacular.com/recipes/pancakes.jpg".
Proof. vm_compute. split; reflexivity. Qed.

(** ** Requests that stay local *)

(** X8: In offline mode a list request sends nothing and changes nothing: it
    returns the payload of a fresh entry under its key and otherwise the
    offline catalogue, which is never empty.  In either mode a fresh entry
    under the key of the request is returned at once, with no request sent
    and the state unchanged. *)
Theorem list_request_served_locally (KEYS : list string) (net : network)
    (include_ingredients : list string) (diet : option string) (number : Z) (w : world) :
  let out := spoonacular_recipes KEYS net include_ingredients diet number w in
  let entry := read_list_cache w !! key_of_request include_ingredients diet number w in
  (offline_mode w = true -> snd out = w)
  /\ (offline_mode w = true -> fresh_hit entry w = None ->
      fst out = _load_demo_recipes w /\ fst out <> [])
  /\ (forall e, entry = Some e ->
                _is_fresh (now w) (entry_ts e) CACHE_TTL_DAYS = true ->
                out = (entry_data e, w)).
Proof.
  intros out entry. unfold out, entry, key_of_request.
  destruct (offline_mode w) eqn:Hoff.
  - rewrite (offline_request_unfold _ _ _ _ _ _ Hoff).
    split; [reflexivity|]. split.
    + intros _ ->. simpl. split; [reflexivity|apply load_demo_nonempty].
    + intros e He Hf. unfold fresh_hit. rewrite He, Hf. reflexivity.
  - split; [discriminate|]. split; [discriminate|].
    intros e He Hf. unfold spoonacular_recipes. rewrite Hoff.
    fold (effective_ingredients include_ingredients).
    fold (request_key include_ingredients diet number).
    unfold fresh_hit. rewrite He, Hf. reflexivity.
Qed.

Lemma list_request_served_locally_witness :
  spoonacular_recipes sample_pool net_one_result ["egg"] None 10
    (snd (spoonacular_recipes sample_pool net_one_result ["egg"] None 10 sample_world))
  = ([summary_of_complex raw_pancake],
     snd (spoonacular_recipes sample_pool net_one_result ["egg"] None 10 sample_world)).
Proof.
  destruct (list_request_served_locally sample_pool net_one_result ["egg"] None 10
              (snd (spoonacular_recipes sample_pool net_one_result ["egg"] None 10
                      sample_world))) as (_ & _ & H).
  apply (H {| entry_ts := Some 0%Z; entry_data := [summary_of_complex raw_pancake] |}).
  - vm_compute. reflexivity.
  - vm_compute. reflexivity.
Defined.

(** ** Lists that come from the provider *)

Lemma map_summary_images_ok (normalise : raw_recipe -> summary) (results : list raw_recipe) :
  (forall rec, image_ok (sum_image (normalise rec))) ->
  Forall (fun s => image_ok (sum_image s)) (map normalise results).
Proof. intros H. apply Forall_fmap, Forall_forall. intros rec _. apply H. Qed.

(** X9: When a live request finds no fresh entry and the provider serves it,
    the list returned (and cached) is not empty and every summary in it
    has an image reference that is absent or absolute, whatever image
    fields the provider sent. *)
Theorem provider_list_is_clean (KEYS : list string) (net : network)
    (include_ingredients : list string) (diet : option string) (number : Z) (w : world) :
  offline_mode w = false ->
  fresh_hit (read_list_cache w !! request_key include_ingredients diet number) w = None ->
  ~ network_failed KEYS net include_ingredients diet number w ->
  fst (spoonacular_recipes KEYS net include_ingredients diet number w) <> []
  /\ Forall (fun s => image_ok (sum_image s))
            (fst (spoonacular_recipes KEYS net include_ingredients diet number w)).
Proof.
  intros Hoff Hhit Hnet.
  destruct (spoonacular_recipes_live_cases KEYS net include_ingredients diet number w Hoff)
    as [_ [(_ & _ & Hf) | (_ & _ & Hne & (results & Hres) & _)]].
  - exfalso. apply Hnet, Hf, Hhit.
  - split; [exact Hne|].
    destruct Hres as [-> | ->]; apply map_summary_images_ok; intros rec; apply fix_image_url_ok.
Qed.

Lemma provider_list_is_clean_witness :
  Forall (fun s => image_ok (sum_image s))
         (fst (spoonacular_recipes sample_pool net_one_result ["egg"] None 10 sample_world)).
Proof.
  apply (provider_list_is_clean sample_pool net_one_result ["egg"] None 10 sample_world).
  - reflexivity.
  - vm_compute. reflexivity.
  - vm_compute. intros H. exact H.
Defined.

(** ** Traffic of a list request *)

(** X10: A list request sends at most [2 * max(1, len(KEYS))] requests, after
    those sent before, none of them in offline mode; each goes to one of
    the two search endpoints with a non-empty key of the pool as
    [apiKey]. *)
Theorem list_request_traffic (KEYS : list string) (net : network)
    (include_ingredients : list string) (diet : option string) (number : Z) (w : world) :
  exists reqs : list request,
    sent (snd (spoonacular_recipes KEYS net include_ingredients diet number w))
    = (sent w ++ reqs)%list
    /\ length reqs <= 2 * Nat.max 1 (length KEYS)
    /\ (offline_mode w = true -> reqs = [])
    /\ Forall (fun rq =>
                 (endpoint rq = "/recipes/complexSearch"
                  \/ endpoint rq = "/recipes/findByIngredients")
                 /\ exists k0, k0 ∈ KEYS /\ PyStr.strip k0 <> ""
                               /\ params rq !! "apiKey" = Some (PyStr.strip k0)) reqs.
Proof.
  assert (Hnone : exists reqs : list request,
             sent w = (sent w ++ reqs)%list
             /\ length reqs <= 2 * Nat.max 1 (length KEYS)
             /\ (offline_mode w = true -> reqs = [])
             /\ Forall (fun rq =>
                          (endpoint rq = "/recipes/complexSearch"
                           \/ endpoint rq = "/recipes/findByIngredients")
                          /\ exists k0, k0 ∈ KEYS /\ PyStr.strip k0 <> ""
                                        /\ params rq !! "apiKey" = Some (PyStr.strip k0)) reqs).
  { exists []. rewrite app_nil_r. repeat split; [simpl; lia|constructor]. }
  destruct (offline_mode w) eqn:Hoff.
  { rewrite (offline_request_unfold _ _ _ _ _ _ Hoff). exact Hnone. }
  unfold spoonacular_recipes. rewrite Hoff.
  destruct (fresh_hit _ _); [exact Hnone|]. clear Hnone.
  unfold primary_search, secondary_search.
  assert (Hshape : forall ep ps (reqs : list request),
            ep = "/recipes/complexSearch" \/ ep = "/recipes/findByIngredients" ->
            Forall (fun rq => exists k0, k0 ∈ KEYS /\ PyStr.strip k0 <> ""
                        /\ rq = request_with_key ep ps (PyStr.strip k0)) reqs ->
            Forall (fun rq =>
                      (endpoint rq = "/recipes/complexSearch"
                       \/ endpoint rq = "/recipes/findByIngredients")
                      /\ exists k0, k0 ∈ KEYS /\ PyStr.strip k0 <> ""
                                    /\ params rq !! "apiKey" = Some (PyStr.strip k0)) reqs).
  { intros ep ps reqs Hep Hreqs. eapply Forall_impl; [exact Hreqs|].
    intros rq (k0 & Hin & Hne & ->).
    split; [exact Hep|]. exists k0. simpl. rewrite lookup_insert_eq. auto. }
  match goal with
  | |- context [strategy KEYS net "/recipes/complexSearch" ?p ?f w] =>
    destruct (strategy_requests KEYS net "/recipes/complexSearch" p f w)
      as (reqs1 & Hs1 & Hl1 & Hf1);
    destruct (strategy KEYS net "/recipes/complexSearch" p f w) as [[l1| |] w1]
  end; simpl in Hs1.
  - exists reqs1. unfold _save_and_return. simpl.
    replace (sent (if disk_writable w1 then _ else w1)) with (sent w1)
      by (destruct (disk_writable w1); reflexivity).
    split; [exact Hs1|]. split; [lia|]. split; [discriminate|].
    eapply Hshape; [by left|exact Hf1].
  - exists reqs1. simpl. split; [exact Hs1|]. split; [lia|]. split; [discriminate|].
    eapply Hshape; [by left|exact Hf1].
  - match goal with
    | |- context [strategy KEYS net "/recipes/findByIngredients" ?p ?f w1] =>
      destruct (strategy_requests KEYS net "/recipes/findByIngredients" p f w1)
        as (reqs2 & Hs2 & Hl2 & Hf2);
      destruct (strategy KEYS net "/recipes/findByIngredients" p f w1) as [[l2| |] w2]
    end; simpl in Hs2.
    all: exists (reqs1 ++ reqs2)%list.
    all: assert (Hall : Forall (fun rq =>
                          (endpoint rq = "/recipes/complexSearch"
                           \/ endpoint rq = "/recipes/findByIngredients")
                          /\ exists k0, k0 ∈ KEYS /\ PyStr.strip k0 <> ""
                                        /\ params rq !! "apiKey" = Some (PyStr.strip k0))
                        (reqs1 ++ reqs2)%list)
      by (apply Forall_app; split;
          [eapply Hshape; [by left|exact Hf1] | eapply Hshape; [by right|exact Hf2]]).
    all: assert (Hlen : length (reqs1 ++ reqs2)%list <= 2 * Nat.max 1 (length KEYS))
      by (rewrite length_app; lia).
    all: assert (Hsent : sent w2 = (sent w ++ (reqs1 ++ reqs2))%list)
      by (rewrite Hs2, Hs1; by rewrite <- app_assoc).
    + unfold _save_and_return. simpl.
      replace (sent (if disk_writable w2 then _ else w2)) with (sent w2)
        by (destruct (disk_writable w2); reflexivity).
      repeat split; try assumption. discriminate.
    + simpl. repeat split; try assumption. discriminate.
    + simpl. repeat split; try assumption. discriminate.
Qed.

(** ** The detail request *)

Example details_of_ex :
  let d := details_of raw_pancake_detail in
  d_steps d = ["Mix."; "Fry."]
  /\ d_image d = Some "https://img.spoonacular.com/recipes/42-556x370.jpg"
  /\ d_sourceUrl d = Some "https://spoonacular.com/pancakes-42"
  /\ d_ingredients d = [].
Proof. vm_compute. repeat split. Qed.

Lemma analyzed_steps_nonempty_texts (insts : list raw_instruction) :
  Forall (fun text => text <> "") (analyzed_steps insts).
Proof.
  unfold analyzed_steps. apply Forall_forall. intros text Hin.
  apply list_elem_of_In, in_flat_map in Hin as (inst & _ & Hin).
  apply in_flat_map in Hin as (step & _ & Hin).
  destruct step as [t|]; [|destruct Hin].
  destruct (PyStr.truthy t) eqn:Ht; [|destruct Hin].
  destruct Hin as [<-|[]]. by apply truthy_true_iff.
Qed.

(** X11: The detail record built from a reply: no step text is empty; the
    structured steps win over the flat instructions, which are used, as
    the single step, only when there is no structured step; the list of
    steps is empty exactly when the provider gave neither; and the image
    reference is absent or absolute. *)
Theorem details_of_steps_and_image (data : raw_detail) :
  let structured := analyzed_steps (default [] (det_analyzedInstructions data)) in
  let flat := PyStr.or_else (det_instructions data) "" in
  Forall (fun text => text <> "") (d_steps (details_of data))
  /\ (structured <> [] -> d_steps (details_of data) = structured)
  /\ (structured = [] -> flat <> "" -> d_steps (details_of data) = [flat])
  /\ (d_steps (details_of data) = [] <-> structured = [] /\ flat = "")
  /\ image_ok (d_image (details_of data)).
Proof.
  intros structured flat.
  pose proof (analyzed_steps_nonempty_texts (default [] (det_analyzedInstructions data))) as Hs.
  fold structured in Hs.
  unfold details_of, flat. simpl. fold structured.
  destruct structured as [|step steps] eqn:Es.
  - destruct (det_instructions data) as [[|c text]|]; simpl.
    + split; [constructor|]. split; [congruence|]. split; [congruence|].
      split; [tauto|apply fix_image_url_ok].
    + split; [constructor; [discriminate|constructor]|]. split; [congruence|].
      split; [reflexivity|]. split; [|apply fix_image_url_ok].
      split; [discriminate|]. intros [_ H]. discriminate H.
    + split; [constructor|]. split; [congruence|]. split; [congruence|].
      split; [tauto|apply fix_image_url_ok].
  - split; [exact Hs|]. split; [reflexivity|]. split; [discriminate|].
    split; [|apply fix_image_url_ok].
    split; [discriminate|]. intros [H _]. discriminate H.
Qed.

Lemma detail_request_frame (KEYS : list string) (net : network)
    (body : Response -> option raw_detail) (recipe_id : Z) (w : world) (fs : detail_files) :
  same_files w (snd (fst (spoonacular_recipe_details KEYS net body recipe_id w fs))).
Proof.
  unfold spoonacular_recipe_details.
  destruct (recipe_id =? 0)%Z; [apply same_files_refl|].
  destruct (details_dir fs !! recipe_id); [apply same_files_refl|].
  destruct (demo_details_dir fs !! recipe_id); [apply same_files_refl|].
  unfold call_spoonacular.
  match goal with
  | |- context [call_loop KEYS net ?ep ?n ?r ?p w] =>
    pose proof (call_loop_frame KEYS net ep n r p w) as Hf;
    destruct (call_loop KEYS net ep n r p w) as [[e|[r0|]] w1]
  end; simpl in *; try exact Hf.
  destruct (negb (status_code r0 =? 200)%Z); [exact Hf|].
  destruct (body r0); exact Hf.
Qed.

(** X12: The detail request touches the detail cache under its own id at most,
    never the demo directory, and writes nothing when it has nothing to
    return: after a request that returns [None] both directories are as
    they were, and after any request the file under its id is the one
    that was there or the record just returned. *)
Theorem detail_request_cache_discipline (KEYS : list string) (net : network)
    (body : Response -> option raw_detail) (recipe_id : Z) (w : world) (fs : detail_files) :
  let out := spoonacular_recipe_details KEYS net body recipe_id w fs in
  demo_details_dir (snd out) = demo_details_dir fs
  /\ (forall id', id' <> recipe_id -> details_dir (snd out) !! id' = details_dir fs !! id')
  /\ (fst (fst out) = None -> snd out = fs)
  /\ (details_dir (snd out) !! recipe_id = details_dir fs !! recipe_id
      \/ (details_dir (snd out) !! recipe_id = fst (fst out) /\ disk_writable w = true)).
Proof.
  intros out. unfold out, spoonacular_recipe_details.
  destruct (recipe_id =? 0)%Z; [simpl; auto|].
  destruct (details_dir fs !! recipe_id) as [cached|] eqn:Hc; [simpl; repeat split; auto; discriminate|].
  destruct (demo_details_dir fs !! recipe_id) as [demo|]; [simpl; repeat split; auto; discriminate|].
  unfold call_spoonacular.
  match goal with
  | |- context [call_loop KEYS net ?ep ?n ?r ?p w] =>
    pose proof (call_loop_frame KEYS net ep n r p w) as Hf;
    destruct (call_loop KEYS net ep n r p w) as [[e|[r0|]] w1]
  end; simpl in Hf; try (simpl; auto).
  destruct (negb (status_code r0 =? 200)%Z); [simpl; auto|].
  destruct (body r0) as [data|]; [|simpl; auto].
  destruct Hf as (_ & _ & Hd & _). rewrite Hd.
  destruct (disk_writable w); simpl.
  - repeat split; try discriminate.
    + intros id' Hid. by rewrite lookup_insert_ne.
    + right. rewrite lookup_insert_eq. auto.
  - repeat split; auto; discriminate.
Qed.

(** X13: A detail record that has been returned once stays available: if the
    disk takes the write, the same id asked again gets the same record
    with no request sent and nothing changed, whatever the pool, the
    provider and its replies are by then. *)
Theorem detail_request_cached_after_success (KEYS : list string) (net : network)
    (body : Response -> option raw_detail) (recipe_id : Z) (w : world) (fs : detail_files)
    (d : details) :
  disk_writable w = true ->
  fst (fst (spoonacular_recipe_details KEYS net body recipe_id w fs)) = Some d ->
  forall (KEYS' : list string) (net' : network) (body' : Response -> option raw_detail),
    let w1 := snd (fst (spoonacular_recipe_details KEYS net body recipe_id w fs)) in
    let fs1 := snd (spoonacular_recipe_details KEYS net body recipe_id w fs) in
    spoonacular_recipe_details KEYS' net' body' recipe_id w1 fs1 = (Some d, w1, fs1).
Proof.
  intros Hdisk Hres KEYS' net' body'.
  pose proof (detail_request_frame KEYS net body recipe_id w fs) as (_ & _ & Hd & _).
  revert Hres Hd. unfold spoonacular_recipe_details at 1 2 3 4.
  destruct (recipe_id =? 0)%Z eqn:Hz; [discriminate|].
  destruct (details_dir fs !! recipe_id) as [cached|] eqn:Hc.
  { simpl. intros [= <-] _. unfold spoonacular_recipe_details. by rewrite Hz, Hc. }
  destruct (demo_details_dir fs !! recipe_id) as [demo|] eqn:Hm.
  { simpl. intros [= <-] _. unfold spoonacular_recipe_details. by rewrite Hz, Hc, Hm. }
  destruct (call_spoonacular _ _ _ _ _) as [[e|[r0|]] w1]; simpl; try discriminate.
  destruct (negb (status_code r0 =? 200)%Z); simpl; [discriminate|].
  destruct (body r0) as [data|]; simpl; [|discriminate].
  intros [= <-] Hd. rewrite Hd, Hdisk.
  unfold spoonacular_recipe_details. rewrite Hz. simpl. by rewrite lookup_insert_eq.
Qed.

Lemma detail_request_cached_after_success_witness :
  let out := spoonacular_recipe_details sample_pool net_one_result body_pancake 42
                                        sample_world no_detail_files in
  spoonacular_recipe_details [] net_down (fun _ => None) 42 (snd (fst out)) (snd out)
  = (Some (details_of raw_pancake_detail), snd (fst out), snd out).
Proof.
  apply (detail_request_cached_after_success sample_pool net_one_result body_pancake 42
           sample_world no_detail_files (details_of raw_pancake_detail)).
  - reflexivity.
  - vm_compute. reflexivity.
Defined.

(** X14: A detail request sends nothing for the id 0 and for an id with a file
    in the detail cache or the demo directory; otherwise it sends at most
    [max(1, len(KEYS))] requests, each to [/recipes/<id>/information]
    with [includeNutrition=false] and a non-empty key of the pool. *)
Theorem detail_request_traffic (KEYS : list string) (net : network)
    (body : Response -> option raw_detail) (recipe_id : Z) (w : world) (fs : detail_files) :
  exists reqs : list request,
    sent (snd (fst (spoonacular_recipe_details KEYS net body recipe_id w fs)))
    = (sent w ++ reqs)%list
    /\ length reqs <= Nat.max 1 (length KEYS)
    /\ (recipe_id = 0%Z \/ is_Some (details_dir fs !! recipe_id)
        \/ is_Some (demo_details_dir fs !! recipe_id) -> reqs = [])
    /\ Forall (fun rq =>
                 endpoint rq = "/recipes/" +:+ PyStr.of_Z recipe_id +:+ "/information"
                 /\ params rq !! "includeNutrition" = Some "false"
                 /\ exists k0, k0 ∈ KEYS /\ PyStr.strip k0 <> ""
                               /\ params rq !! "apiKey" = Some (PyStr.strip k0)) reqs.
Proof.
  assert (Hnone : exists reqs : list request,
             sent w = (sent w ++ reqs)%list
             /\ length reqs <= Nat.max 1 (length KEYS)
             /\ (recipe_id = 0%Z \/ is_Some (details_dir fs !! recipe_id)
                 \/ is_Some (demo_details_dir fs !! recipe_id) -> reqs = [])
             /\ Forall (fun rq =>
                   endpoint rq = "/recipes/" +:+ PyStr.of_Z recipe_id +:+ "/information"
                   /\ params rq !! "includeNutrition" = Some "false"
                   /\ exists k0, k0 ∈ KEYS /\ PyStr.strip k0 <> ""
                                 /\ params rq !! "apiKey" = Some (PyStr.strip k0)) reqs).
  { exists []. rewrite app_nil_r. repeat split; [simpl; lia|constructor]. }
  unfold spoonacular_recipe_details.
  destruct (recipe_id =? 0)%Z eqn:Hz; [exact Hnone|].
  destruct (details_dir fs !! recipe_id) as [cached|] eqn:Hc; [exact Hnone|].
  destruct (demo_details_dir fs !! recipe_id) as [demo|] eqn:Hm; [exact Hnone|].
  clear Hnone. unfold call_spoonacular.
  match goal with
  | |- context [call_loop KEYS net ?ep ?n ?r ?p w] =>
    destruct (call_loop_requests KEYS net ep n r p w) as (reqs & Hs & Hl & Hf);
    destruct (call_loop KEYS net ep n r p w) as [[e|[r0|]] w1]
  end; simpl in Hs.
  all: exists reqs.
  all: assert (Hshape : Forall (fun rq =>
                   endpoint rq = "/recipes/" +:+ PyStr.of_Z recipe_id +:+ "/information"
                   /\ params rq !! "includeNutrition" = Some "false"
                   /\ exists k0, k0 ∈ KEYS /\ PyStr.strip k0 <> ""
                                 /\ params rq !! "apiKey" = Some (PyStr.strip k0)) reqs)
    by (eapply Forall_impl; [exact Hf|];
        intros rq (k0 & Hin & Hne & ->); simpl;
        split; [reflexivity|]; split;
        [rewrite lookup_insert_ne by discriminate; apply lookup_insert_eq
        |exists k0; rewrite lookup_insert_eq; auto]).
  all: assert (Hlocal : recipe_id = 0%Z \/ is_Some (@None details)
                        \/ is_Some (@None details) -> reqs = [])
    by (intros [->|[[? H]|[? H]]]; [discriminate Hz|discriminate H|discriminate H]).
  - simpl. auto.
  - destruct (negb (status_code r0 =? 200)%Z); [simpl; auto|].
    destruct (body r0); simpl; auto.
  - simpl. auto.
Qed.

(** ** More on the recommender *)

Lemma Sorted_take {A} (R : relation A) (l : list A) (n : nat) :
  Sorted R l -> Sorted R (take n l).
Proof.
  intros Hs. revert n. induction Hs as [|x l Hs IH Hhd]; intros [|n]; simpl;
    try constructor.
  - apply IH.
  - destruct Hhd as [|y l' Hxy]; destruct n; simpl; constructor. exact Hxy.
Qed.

Lemma Sorted_head {A} (R : relation A) (l : list A) (k : Z) :
  Sorted R l -> Sorted R (head k l).
Proof. intros Hs. unfold head. destruct (0 <=? k)%Z; by apply Sorted_take. Qed.

Lemma head_submseteq {A} (k : Z) (l : list A) : head k l ⊆+ l.
Proof. unfold head. destruct (0 <=? k)%Z; apply submseteq_take. Qed.

Lemma head_length {A} (k : Z) (l : list A) :
  (0 <= k)%Z -> length (head k l) <= Z.to_nat k.
Proof. intros Hk. rewrite head_nonneg by exact Hk. rewrite length_take. lia. Qed.

Section RecommenderOrder.
Context `{Scoring}.

Lemma score_desc_total : score_total -> Total score_desc.
Proof. intros Ht a b. unfold score_desc. destruct (Ht (snd a) (snd b)); auto. Qed.

Lemma zero_scored_sorted (rs : list recipe_row) :
  score_total -> Sorted score_desc (zero_scored rs).
Proof.
  intros Ht. assert (Hz : score_leb score_zero score_zero = true).
  { destruct (Ht score_zero score_zero); assumption. }
  unfold zero_scored. induction rs as [|r rs IH]; simpl; constructor; [exact IH|].
  destruct rs; simpl; constructor. exact Hz.
Qed.

(** X15: On a trained index whose score order is total, whatever is returned is
    ordered by descending score, holds at most [top_k] rows when
    [top_k >= 0], and its rows are catalogue rows, none returned more
    often than it occurs in the catalogue; for a non-empty query every
    returned row carries the similarity the kernel gave that row. *)
Theorem recommend_sorted_and_bounded (fs : artifacts) (vec : Vectorizer) (mat : Matrix)
    (rec_map : recipes_index) (pantry_items : list string) (top_k : Z) (diet : option string)
    (out : list scored_row) :
  vect_file fs = Holds vec -> matrix_file fs = Holds mat -> recipes_map fs = Holds rec_map ->
  score_total ->
  recommend_from_pantry fs pantry_items top_k diet = inr out ->
  Sorted score_desc out
  /\ ((0 <= top_k)%Z -> length out <= Z.to_nat top_k)
  /\ map fst out ⊆+ rows rec_map
  /\ (pantry_query pantry_items <> "" ->
      out ⊆+ zip (rows rec_map) (linear_kernel vec mat (pantry_query pantry_items))).
Proof.
  intros Hv Hm Hr Ht Hout.
  rewrite (recommend_trained fs vec mat rec_map) in Hout by assumption.
  cbv zeta in Hout.
  destruct (PyStr.truthy (pantry_query pantry_items)) eqn:Hq; simpl in Hout.
  - destruct (negb (length _ =? length _)%nat) eqn:Hlen; [discriminate|].
    apply negb_false_iff, Nat.eqb_eq in Hlen.
    injection Hout as <-.
    set (scored := zip (rows rec_map) (linear_kernel vec mat (pantry_query pantry_items))).
    set (kept := if PyStr.truthy (PyStr.or_else diet "") && has_diet_tag rec_map
                 then filter (fun r => diet_matches (PyStr.or_else diet "") (fst r) = true) scored
                 else scored).
    assert (Hkept : kept ⊆+ scored).
    { unfold kept. destruct (_ && _); [|reflexivity].
      apply sublist_submseteq, sublist_filter. }
    assert (Hsub : head top_k (sort_values kept) ⊆+ scored).
    { etrans; [apply head_submseteq|]. unfold sort_values.
      rewrite merge_sort_Permutation. exact Hkept. }
    split; [|split; [|split]].
    + apply Sorted_head. unfold sort_values. apply Sorted_merge_sort.
      by apply score_desc_total.
    + apply head_length.
    + rewrite Hsub. unfold scored. rewrite fst_zip by lia. reflexivity.
    + intros _. exact Hsub.
  - injection Hout as <-.
    split; [|split; [|split]].
    + unfold zero_scored.
      assert (Hmap : forall rs : list recipe_row,
                 map (fun r => (r, score_zero)) (head top_k rs)
                 = head top_k (map (fun r => (r, score_zero)) rs)).
      { intros rs. unfold head. rewrite length_map.
        destruct (0 <=? top_k)%Z; by rewrite fmap_take. }
      fold (zero_scored (head top_k (rows rec_map))). unfold zero_scored.
      rewrite Hmap. apply Sorted_head. by apply zero_scored_sorted.
    + intros Hk. unfold zero_scored. rewrite length_map. by apply head_length.
    + assert (Hid : forall rs : list recipe_row, map fst (zero_scored rs) = rs).
      { intros rs. unfold zero_scored.
        induction rs as [|r rs IH]; [reflexivity|]. simpl. f_equal. exact IH. }
      rewrite Hid. apply head_submseteq.
    + intros Hne. apply truthy_false_iff in Hq. congruence.
Qed.

(** X16: The recommender does not look at the case of letters: pantry lists
    that agree item by item up to case, and diets that agree up to case
    (an absent diet counting as the empty one), get the same answer. *)
Theorem recommend_case_insensitive (fs : artifacts) (items1 items2 : list string)
    (top_k : Z) (diet1 diet2 : option string) :
  Forall2 same_up_to_case items1 items2 ->
  same_up_to_case (PyStr.or_else diet1 "") (PyStr.or_else diet2 "") ->
  recommend_from_pantry fs items1 top_k diet1 = recommend_from_pantry fs items2 top_k diet2.
Proof.
  intros Hitems Hdiet.
  assert (Hq : pantry_query items1 = pantry_query items2).
  { unfold pantry_query. f_equal.
    induction Hitems as [|a b l1 l2 Hab _ IH]; [reflexivity|].
    assert (Hblank : PyStr.truthy (PyStr.strip a) = PyStr.truthy (PyStr.strip b)).
    { assert (Hs : all_space a = all_space b).
      { rewrite <- (all_space_lower a), <- (all_space_lower b). by rewrite Hab. }
      destruct (PyStr.truthy (PyStr.strip a)) eqn:Ea, (PyStr.truthy (PyStr.strip b)) eqn:Eb;
        try reflexivity.
      - apply strip_blank_iff in Eb. rewrite <- Hs in Eb. apply strip_blank_iff in Eb.
        congruence.
      - apply strip_blank_iff in Ea. rewrite Hs in Ea. apply strip_blank_iff in Ea.
        congruence. }
    assert (Htok : pantry_token a = pantry_token b).
    { unfold pantry_token. by rewrite Hab. }
    destruct (PyStr.truthy (PyStr.strip a)) eqn:Ea.
    - rewrite !filter_cons_True by congruence. simpl. by rewrite Htok, IH.
    - rewrite !filter_cons_False by congruence. exact IH. }
  assert (Ht : PyStr.truthy (PyStr.or_else diet1 "") = PyStr.truthy (PyStr.or_else diet2 "")).
  { unfold same_up_to_case in Hdiet.
    destruct (PyStr.or_else diet1 "") as [|c1 d1], (PyStr.or_else diet2 "") as [|c2 d2];
      try reflexivity; discriminate Hdiet. }
  assert (Hf : forall l : list scored_row,
             filter (fun r => diet_matches (PyStr.or_else diet1 "") (fst r) = true) l
             = filter (fun r => diet_matches (PyStr.or_else diet2 "") (fst r) = true) l).
  { intros l. apply list_filter_iff. intros r. unfold diet_matches.
    unfold same_up_to_case in Hdiet. by rewrite Hdiet. }
  unfold recommend_from_pantry. rewrite Hq, Ht.
  destruct (vect_file fs), (matrix_file fs), (recipes_map fs); try reflexivity.
  simpl. rewrite Hf. reflexivity.
Qed.

End RecommenderOrder.

Lemma recommend_sorted_and_bounded_witness :
  Sorted (@score_desc sample_scoring) [(row_salad, 7%Z); (row_dal, 5%Z)].
Proof.
  assert (Ht : @score_total sample_scoring).
  { intros x y. simpl. rewrite !Z.leb_le. lia. }
  destruct (@recommend_sorted_and_bounded sample_scoring sample_artifacts
              (tt : @Vectorizer sample_scoring) ([5; 9; 7]%Z : @Matrix sample_scoring)
              sample_catalogue ["Rice"] 2 (Some "vegan") [(row_salad, 7%Z); (row_dal, 5%Z)]
              eq_refl eq_refl eq_refl Ht) as [Hs _].
  - vm_compute. reflexivity.
  - exact Hs.
Defined.

Lemma recommend_case_insensitive_witness :
  @recommend_from_pantry sample_scoring sample_artifacts ["RICE"] 2 (Some "Vegan")
  = @recommend_from_pantry sample_scoring sample_artifacts ["rice"] 2 (Some "vegan").
Proof.
  apply (@recommend_case_insensitive sample_scoring sample_artifacts ["RICE"] ["rice"] 2
           (Some "Vegan") (Some "vegan")).
  - constructor; [vm_compute; reflexivity|constructor].
  - vm_compute. reflexivity.
Defined.

(** ** Training-side text *)

Example prep_text_list_ex1 :
  _prep_text_list (CellStr "Olive Oil; Garlic , ,Basmati Rice") = "olive_oil garlic basmati_rice".
Proof. vm_compute. reflexivity. Qed.

Example prep_text_list_ex2 :
  _prep_text_list (CellList ["Olive Oil"; " "; "Garlic"]) = "olive_oil  garlic".
Proof. vm_compute. reflexivity. Qed.

Lemma lower_lstrip (s : string) : PyStr.lower (PyStr.lstrip s) = PyStr.lstrip (PyStr.lower s).
Proof.
  induction s as [|c s IH]; simpl; [reflexivity|].
  rewrite is_space_lower_char. destruct (PyStr.is_space c); [exact IH|reflexivity].
Qed.

Lemma lower_rev_app (a b : string) :
  PyStr.lower (String.rev_app a b) = String.rev_app (PyStr.lower a) (PyStr.lower b).
Proof.
  revert b. induction a as [|c a IH]; intros b; simpl; [reflexivity|]. by rewrite IH.
Qed.

(** Lower-casing and trimming commute. *)
Lemma lower_strip_comm (s : string) :
  PyStr.lower (PyStr.strip s) = PyStr.strip (PyStr.lower s).
Proof.
  unfold PyStr.strip, PyStr.rstrip, String.rev.
  rewrite lower_rev_app, lower_lstrip, lower_rev_app, lower_lstrip. reflexivity.
Qed.

Lemma str_split_app (sep : ascii) (x rest : string) :
  free_of sep x ->
  str_split sep (x +:+ String sep rest) = x :: str_split sep rest.
Proof.
  unfold free_of. induction x as [|c x IH]; intros Hx.
  - change ("" +:+ String sep rest) with (String sep rest). simpl.
    destruct (decide (sep = sep)); [reflexivity|congruence].
  - change (String c x +:+ String sep rest) with (String c (x +:+ String sep rest)).
    simpl in *. destruct (decide (sep = c)) as [->|Hne]; [discriminate|].
    destruct (decide (c = sep)); [congruence|]. rewrite (IH Hx). reflexivity.
Qed.

Lemma str_split_free_of (sep : ascii) (x : string) : free_of sep x -> str_split sep x = [x].
Proof.
  unfold free_of. induction x as [|c x IH]; intros Hx; [reflexivity|].
  simpl in *. destruct (decide (sep = c)) as [->|Hne]; [discriminate|].
  destruct (decide (c = sep)); [congruence|]. rewrite (IH Hx). reflexivity.
Qed.

(** Splitting what [join] glued gives the parts back. *)
Lemma str_split_join (sep : ascii) (items : list string) :
  items <> [] -> Forall (free_of sep) items ->
  str_split sep (PyStr.join (String sep "") items) = items.
Proof.
  intros Hne Hfree. induction Hfree as [|x l Hx Hl IH]; [congruence|].
  destruct l as [|y l].
  - simpl. by apply str_split_free_of.
  - change (PyStr.join (String sep "") (x :: y :: l))
      with (x +:+ String sep "" +:+ PyStr.join (String sep "") (y :: l)).
    change (String sep "" +:+ PyStr.join (String sep "") (y :: l))
      with (String sep (PyStr.join (String sep "") (y :: l))).
    rewrite str_split_app by exact Hx. f_equal. apply IH. discriminate.
Qed.

Lemma replace_char_free (a b : ascii) (s : string) :
  free_of a s -> PyStr.replace_char a b s = s.
Proof.
  unfold free_of. induction s as [|c s IH]; simpl; [reflexivity|].
  destruct (decide (a = c)) as [->|Hne]; [discriminate|].
  intros Hs. destruct (decide (c = a)); [congruence|]. by rewrite IH.
Qed.

Lemma contains_char_app (c : ascii) (a b : string) :
  PyStr.contains_char c (a +:+ b) = PyStr.contains_char c a || PyStr.contains_char c b.
Proof.
  induction a as [|x a IH]; [reflexivity|].
  change (String x a +:+ b) with (String x (a +:+ b)). simpl.
  destruct (decide (c = x)); [reflexivity|exact IH].
Qed.

Lemma free_of_join (c : ascii) (sep : string) (items : list string) :
  free_of c sep -> Forall (free_of c) items -> free_of c (PyStr.join sep items).
Proof.
  unfold free_of. intros Hsep Hitems.
  induction Hitems as [|x l Hx Hl IH]; [reflexivity|].
  destruct l as [|y l]; [exact Hx|].
  change (PyStr.join sep (x :: y :: l)) with (x +:+ sep +:+ PyStr.join sep (y :: l)).
  rewrite !contains_char_app, Hx, Hsep. exact IH.
Qed.

Lemma prep_text_str_unfold (text : string) :
  _prep_text_list (CellStr text)
  = pantry_query (str_split "," (PyStr.replace_char ";" "," text)).
Proof.
  unfold _prep_text_list, pantry_query. f_equal.
  apply map_ext. intros p. unfold pantry_token. by rewrite lower_strip_comm.
Qed.

(** X17: Training and inference agree on the text: an ingredient cell written
    as a delimited string is turned into the query text of its parts
    (cut at commas and semicolons); so the comma-joined, or
    semicolon-joined, text of ingredient names that contain neither
    delimiter gets exactly the pantry query of those names, and so does
    the same list given as a list when none of its items is blank. *)
Theorem prep_text_matches_query (items : list string) :
  Forall (free_of ",") items -> Forall (free_of ";") items ->
  _prep_text_list (CellStr (PyStr.join "," items)) = pantry_query items
  /\ _prep_text_list (CellStr (PyStr.join ";" items)) = pantry_query items
  /\ (Forall (fun i => PyStr.truthy (PyStr.strip i) = true) items ->
      _prep_text_list (CellList items) = pantry_query items).
Proof.
  intros Hc Hs.
  assert (Hempty : _prep_text_list (CellStr "") = pantry_query []) by reflexivity.
  split; [|split].
  - destruct items as [|x l]; [exact Hempty|].
    rewrite prep_text_str_unfold.
    rewrite replace_char_free by (apply free_of_join; [reflexivity|exact Hs]).
    rewrite str_split_join; [reflexivity|discriminate|exact Hc].
  - destruct items as [|x l]; [exact Hempty|].
    rewrite prep_text_str_unfold.
    assert (Hrep : PyStr.replace_char ";" "," (PyStr.join ";" (x :: l))
                   = PyStr.join "," (x :: l)).
    { clear Hc Hempty. remember (x :: l) as items eqn:E. clear E x l.
      induction Hs as [|x l Hx Hl IH]; [reflexivity|].
      destruct l as [|y l]; [simpl; by apply replace_char_free|].
      change (PyStr.join ";" (x :: y :: l)) with (x +:+ ";" +:+ PyStr.join ";" (y :: l)).
      change (PyStr.join "," (x :: y :: l)) with (x +:+ "," +:+ PyStr.join "," (y :: l)).
      rewrite <- IH. clear IH.
      generalize (PyStr.join ";" (y :: l)). intros rest.
      unfold free_of in Hx. induction x as [|c x IHx].
      - reflexivity.
      - change (String c x +:+ ";" +:+ rest) with (String c (x +:+ ";" +:+ rest)).
        change (String c x +:+ "," +:+ PyStr.replace_char ";" "," rest)
          with (String c (x +:+ "," +:+ PyStr.replace_char ";" "," rest)).
        simpl in *. destruct (decide (";"%char = c)) as [<-|Hne]; [discriminate|].
        destruct (decide (c = ";"%char)); [congruence|]. f_equal. by apply IHx. }
    rewrite Hrep. rewrite str_split_join; [reflexivity|discriminate|exact Hc].
  - intros Hnb. unfold _prep_text_list, pantry_query. f_equal.
    fold pantry_token.
    clear Hc Hs Hempty. induction Hnb as [|x l Hx Hl IH]; [reflexivity|].
    rewrite filter_cons_True by exact Hx. simpl. by rewrite IH.
Qed.

Lemma prep_text_matches_query_witness :
  _prep_text_list (CellStr (PyStr.join "," ["Olive Oil"; " "; "Garlic"]))
  = pantry_query ["Olive Oil"; " "; "Garlic"].
Proof.
  apply (prep_text_matches_query ["Olive Oil"; " "; "Garlic"]);
    repeat constructor.
Defined.

(** ** The shopping list *)

(** X18: Removing by index is guarded: an index below 0 or past the end leaves
    the list as it is (no wrap-around to the last item); an index inside
    it drops exactly that item and keeps the others in order; and removing
    the item just added, at the old length, gives the old list back. *)
Theorem shopping_list_add_remove {A} (shopping_list : list A) (item : A) (index : Z) :
  remove_from_list (add_to_list shopping_list item) (Z.of_nat (length shopping_list))
  = shopping_list
  /\ ((index < 0 \/ Z.of_nat (length shopping_list) <= index)%Z ->
      remove_from_list shopping_list index = shopping_list)
  /\ ((0 <= index < Z.of_nat (length shopping_list))%Z ->
      remove_from_list shopping_list index
      = (take (Z.to_nat index) shopping_list ++ drop (S (Z.to_nat index)) shopping_list)%list
      /\ S (length (remove_from_list shopping_list index)) = length shopping_list)
  /\ remove_from_list shopping_list index `sublist_of` shopping_list.
Proof.
  unfold remove_from_list, add_to_list. split; [|split; [|split]].
  - rewrite length_app. simpl.
    assert (H1 : (0 <=? Z.of_nat (length shopping_list))%Z = true) by (apply Z.leb_le; lia).
    assert (H2 : (Z.of_nat (length shopping_list)
                  <? Z.of_nat (length shopping_list + 1))%Z = true) by (apply Z.ltb_lt; lia).
    rewrite H1, H2. simpl. rewrite Nat2Z.id.
    rewrite (delete_middle shopping_list [] item). apply app_nil_r.
  - intros Hout.
    destruct (0 <=? index)%Z eqn:H1; [|reflexivity].
    destruct (index <? Z.of_nat (length shopping_list))%Z eqn:H2; [|reflexivity].
    apply Z.leb_le in H1. apply Z.ltb_lt in H2. lia.
  - intros [Hlo Hhi].
    apply Z.leb_le in Hlo as H1. apply Z.ltb_lt in Hhi as H2. rewrite H1, H2. simpl.
    split; [apply delete_take_drop|].
    pose proof (length_delete shopping_list (Z.to_nat index)) as Hlen.
    destruct (lookup_lt_is_Some_2 shopping_list (Z.to_nat index) ltac:(lia)) as [y Hy].
    rewrite Hy in Hlen. specialize (Hlen ltac:(eauto)).
    assert (0 < length shopping_list) by lia. lia.
  - destruct (_ && _); [apply sublist_delete|reflexivity].
Qed.

Lemma shopping_list_add_remove_witness :
  remove_from_list ["milk"; "eggs"; "rice"] (-1) = ["milk"; "eggs"; "rice"]
  /\ remove_from_list ["milk"; "eggs"; "rice"] 1 = ["milk"; "rice"].
Proof.
  destruct (shopping_list_add_remove ["milk"; "eggs"; "rice"] "tea" (-1)) as (_ & Hout & _).
  destruct (shopping_list_add_remove ["milk"; "eggs"; "rice"] "tea" 1) as (_ & _ & Hin & _).
  split.
  - apply Hout. lia.
  - destruct Hin as [Hin _]; [simpl; lia|]. rewrite Hin. reflexivity.
Defined.

(** ** The key of a request *)

Lemma same_up_to_case_strip (a b : string) :
  same_up_to_case a b -> same_up_to_case (PyStr.strip a) (PyStr.strip b).
Proof. unfold same_up_to_case. intros H. by rewrite !lower_strip_comm, H. Qed.

Lemma same_up_to_case_empty (a b : string) :
  same_up_to_case a b -> PyStr.truthy a = PyStr.truthy b.
Proof.
  unfold same_up_to_case. destruct a, b; simpl; intros H; try reflexivity; discriminate H.
Qed.

Lemma clean_ingredients_case (l1 l2 : list string) :
  Forall2 same_up_to_case l1 l2 ->
  Forall2 same_up_to_case (clean_ingredients l1) (clean_ingredients l2).
Proof.
  unfold clean_ingredients. induction 1 as [|a b l1 l2 Hab _ IH]; [constructor|].
  pose proof (same_up_to_case_empty _ _ Hab) as H1.
  pose proof (same_up_to_case_empty _ _ (same_up_to_case_strip _ _ Hab)) as H2.
  destruct (PyStr.truthy a && PyStr.truthy (PyStr.strip a)) eqn:E.
  - rewrite !filter_cons_True by (rewrite <- ?H1, <- ?H2; exact E).
    simpl. constructor; [by apply same_up_to_case_strip|exact IH].
  - rewrite !filter_cons_False by (rewrite <- ?H1, <- ?H2; rewrite E; discriminate).
    exact IH.
Qed.

Lemma normalized_names_case (l1 l2 : list string) :
  Forall2 same_up_to_case l1 l2 -> normalized_names l1 = normalized_names l2.
Proof.
  unfold normalized_names. induction 1 as [|a b l1 l2 Hab _ IH]; [reflexivity|].
  pose proof (same_up_to_case_empty _ _ Hab) as H1.
  pose proof (same_up_to_case_strip _ _ Hab) as H2. unfold same_up_to_case in H2.
  destruct (PyStr.truthy a) eqn:E.
  - rewrite !filter_cons_True by congruence. simpl. by rewrite H2, IH.
  - rewrite !filter_cons_False by congruence. exact IH.
Qed.

Lemma clean_ingredients_Permutation (l1 l2 : list string) :
  l1 ≡ₚ l2 -> clean_ingredients l1 ≡ₚ clean_ingredients l2.
Proof. intros Hp. unfold clean_ingredients. apply Permutation_map. by rewrite Hp. Qed.

(** X19: The key a list request works under, in live and in offline mode, does
    not depend on the order of the ingredients given nor on the case of
    their letters. *)
Theorem request_key_invariant (l1 l2 l3 : list string) (diet : option string) (number : Z)
    (w : world) :
  Forall2 same_up_to_case l1 l2 -> l2 ≡ₚ l3 ->
  key_of_request l1 diet number w = key_of_request l3 diet number w.
Proof.
  intros Hcase Hperm.
  assert (Hkey : forall d (c1 c2 c3 : list string),
             Forall2 same_up_to_case c1 c2 -> c2 ≡ₚ c3 ->
             _cache_key c1 d number = _cache_key c3 d number).
  { intros d c1 c2 c3 H12 H23. rewrite !cache_key_unfold.
    rewrite (normalized_names_case _ _ H12).
    by rewrite (sorted_Permutation _ _ (normalized_names_Permutation _ _ H23)). }
  pose proof (clean_ingredients_case _ _ Hcase) as Hc.
  pose proof (clean_ingredients_Permutation _ _ Hperm) as Hp.
  unfold key_of_request, offline_key, request_key, effective_ingredients.
  destruct (offline_mode w); [by apply (Hkey _ _ (clean_ingredients l2))|].
  destruct Hc as [|a b c1 c2 Hab Hc].
  - apply Permutation_nil_l in Hp. rewrite <- Hp. reflexivity.
  - destruct (clean_ingredients l3) as [|x c3] eqn:E3.
    + apply Permutation_nil_r in Hp. discriminate Hp.
    + apply (Hkey _ _ (b :: c2)); [by constructor|exact Hp].
Qed.

Lemma request_key_invariant_witness :
  key_of_request ["Egg"; "MILK"] (Some "keto") 10 sample_world
  = key_of_request ["milk"; "egg"] (Some "keto") 10 sample_world.
Proof.
  apply (request_key_invariant ["Egg"; "MILK"] ["egg"; "milk"] ["milk"; "egg"]
           (Some "keto") 10 sample_world).
  - repeat constructor.
  - apply perm_swap.
Defined.
